(** * reviewflow: coverage metrics and sensitivity tables

    A shallow embedding of [scripts/compute_coverage_metrics.py] and
    [scripts/make_sensitivity.py], and the properties of the two pipelines.

    Conventions of the embedding.
    - A Python [float] is a real number ([R]); arithmetic is exact.  The
      non-finite values ([inf], [nan]) and rounding are outside the model.
    - A Python [int] is an element of [Z]; a length or a count is a [nat].
    - A Python [str] is a [string]; its characters are the code points
      below 256.
    - An exception is a value of [exn]; code that may raise returns a
      [result].
    - The built-ins [float(s)] and [int(s)] on strings are parameters of the
      readers ([None] stands for their [ValueError]).
    - A text file is given by what the code iterates over: its lines for
      the depth reader, the rows of [csv.reader] for the TSV reader.  A
      written CSV file is the list of rows handed to the [csv] writer. *)

From Stdlib Require Import Reals Lra Lia ZArith Ascii.
From stdpp Require Import gmap strings pretty.
From stdpp Require Import sorting.

(** ** The Python layer *)

Module Py.

(** Exceptions the two scripts can meet. *)
Inductive exn :=
| ValueError_columns              (* ValueError('Expected at least 8 columns per line: ...') *)
| ValueError_float (arg : string) (* float(arg): could not convert string to float *)
| ValueError_int (arg : string)   (* int(arg): invalid literal for int() with base 10 *)
| IndexError                      (* list index out of range *)
| KeyError (key : string)         (* missing dictionary key *)
| FileNotFoundError (path : string).

Definition is_ValueError (e : exn) : bool :=
  match e with
  | ValueError_columns | ValueError_float _ | ValueError_int _ => true
  | _ => false
  end.

Inductive result (A : Type) :=
| Ok (a : A)
| Raise (e : exn).
Arguments Ok {A} a.
Arguments Raise {A} e.

(** Sequencing: an exception of the first computation ends the second. *)
Global Instance result_bind : MBind result := fun A B k m =>
  match m with
  | Ok a => k a
  | Raise e => Raise e
  end.

(** [str.isspace] on one character, for code points below 256. *)
Definition isspace (c : ascii) : bool :=
  let n := nat_of_ascii c in
  ((9 <=? n) && (n <=? 13) || (28 <=? n) && (n <=? 32)
   || (n =? 133) || (n =? 160))%nat.

Fixpoint lstrip (s : string) : string :=
  match s with
  | EmptyString => EmptyString
  | String c s' => if isspace c then lstrip s' else s
  end.

Fixpoint rstrip (s : string) : string :=
  match s with
  | EmptyString => EmptyString
  | String c s' =>
      match rstrip s' with
      | EmptyString => if isspace c then EmptyString else String c EmptyString
      | t => String c t
      end
  end.

(** [s.strip()] *)
Definition strip (s : string) : string := rstrip (lstrip s).

(** [s.rstrip(c)] for a single character [c]. *)
Fixpoint rstrip_char (c : ascii) (s : string) : string :=
  match s with
  | EmptyString => EmptyString
  | String d s' =>
      match rstrip_char c s' with
      | EmptyString => if Ascii.eqb d c then EmptyString else String d EmptyString
      | t => String d t
      end
  end.

(** [s.split()]: the maximal runs of non-blank characters, in order.
    [tok] is the run being read. *)
Fixpoint split_from (tok : option string) (s : string) : list string :=
  match s with
  | EmptyString => match tok with Some t => [t] | None => [] end
  | String c s' =>
      if isspace c then
        match tok with
        | Some t => t :: split_from None s'
        | None => split_from None s'
        end
      else
        split_from (Some (default EmptyString tok +:+ String c EmptyString)) s'
  end.

Definition split (s : string) : list string := split_from None s.

(** [s.startswith(p)] *)
Definition startswith (s p : string) : bool := String.prefix p s.

(** [l[i]] *)
Definition getitem {A} (l : list A) (i : nat) : result A :=
  match l !! i with
  | Some x => Ok x
  | None => Raise IndexError
  end.

(** Comparisons of floats are decided. *)
Global Instance Rle_decision : RelDecision Rle := Rle_dec.
Global Instance Rlt_decision : RelDecision Rlt := Rlt_dec.
Global Instance Rge_decision : RelDecision Rge := Rge_dec.
Global Instance Rgt_decision : RelDecision Rgt := Rgt_dec.
Global Instance Req_decision : EqDecision R := Req_dec_T.

(** The values stored in the dictionaries and written to CSV cells. *)
Inductive value :=
| VStr (s : string)
| VInt (n : Z)
| VFloat (x : R)
| VBool (b : bool).

(** Truth value of an object. *)
Definition truthy (v : value) : bool :=
  match v with
  | VStr s => negb (String.eqb s "")
  | VInt n => negb (n =? 0)%Z
  | VFloat x => bool_decide (x <> 0%R)
  | VBool b => b
  end.

(** [x and y]: [y] is evaluated only when [x] is true, and an exception of
    either operand is the exception of the expression. *)
Definition py_and (x y : result value) : result value :=
  v ← x;
  if truthy v then y else Ok v.

(** [d[k]] on a dictionary. *)
Definition dict_getitem (d : gmap string value) (k : string) : result value :=
  match d !! k with
  | Some v => Ok v
  | None => Raise (KeyError k)
  end.

(** [float(s)] and [int(s)] on a string, over the built-in readers
    [py_float] and [py_int], where [None] is their [ValueError]. *)
Definition float (py_float : string -> option R) (s : string) : result R :=
  match py_float s with
  | Some x => Ok x
  | None => Raise (ValueError_float s)
  end.

Definition int (py_int : string -> option Z) (s : string) : result Z :=
  match py_int s with
  | Some n => Ok n
  | None => Raise (ValueError_int s)
  end.

(** [sum(l)] on a list of floats. *)
Definition sum (l : list R) : R := fold_left Rplus l 0%R.

End Py.

Export Py.

(** ** compute_coverage_metrics.py *)

Module Coverage.

Section Reader.
Variable py_float : string -> option R.

(** The body of the loop of [read_depth_file], for one [line], with the
    list [depths] read so far. *)
Definition read_depth_line (depths : list R) (line : string) : result (list R) :=
  let line := strip line in
  if String.eqb line "" then Ok depths            (* if not line: continue *)
  else
    let parts := split line in
    if (length parts <? 2)%nat then Ok depths     (* if len(parts) < 2: continue *)
    else
      match (p ← getitem parts 1; float py_float p) with  (* try: d = float(parts[1]) *)
      | Ok d => Ok (depths ++ [d])                 (* depths.append(d) *)
      | Raise e =>
          if is_ValueError e then Ok depths        (* except ValueError: continue *)
          else Raise e
      end.

Fixpoint read_depth_lines (depths : list R) (fh : list string) : result (list R) :=
  match fh with
  | [] => Ok depths
  | line :: fh' =>
      depths' ← read_depth_line depths line;
      read_depth_lines depths' fh'
  end.

(** [read_depth_file(path)], on the lines [fh] of the opened file. *)
Definition read_depth_file (fh : list string) : result (list R) :=
  read_depth_lines [] fh.
End Reader.

(** [statistics.pstdev(data)]: the square root of the mean of the squared
    deviations from the mean. *)
Definition pstdev (data : list R) : R :=
  let n := INR (length data) in
  let mu := (sum data / n)%R in
  sqrt (sum (map (fun x => ((x - mu) * (x - mu))%R) data) / n).

Record metrics := { breadth : R; mean_depth : R; evenness : R }.

(** [compute_metrics(depths)] returns [breadth, mean_depth, evenness]. *)
Definition compute_metrics (depths : list R) : metrics :=
  match depths with
  | [] => {| breadth := 0; mean_depth := 0; evenness := 0 |}
  | _ =>
      let total_positions := length depths in
      let covered_positions := length (filter (fun d => d > 0)%R depths) in
      let breadth := (100 * (INR covered_positions / INR total_positions))%R in
      let mean_depth := (sum depths / INR total_positions)%R in
      let sd := if (1 <? length depths)%nat then pstdev depths else 0%R in  (* len(depths) > 1 *)
      let evenness :=
        if decide (mean_depth <= 0)%R then 0%R
        else
          let evenness := (1 - sd / mean_depth)%R in
          let evenness := if decide (evenness < 0)%R then 0%R else evenness in
          let evenness := if decide (evenness > 1)%R then 1%R else evenness in
          evenness
      in
      {| breadth := breadth; mean_depth := mean_depth; evenness := evenness |}
  end.

Definition zero_metrics : metrics :=
  {| breadth := 0; mean_depth := 0; evenness := 0 |}.

(** The body of the loop of [main] for one depth file with lines [fh]: the
    metrics of the row written and its [pass_conservative] flag. *)
Definition target_row (py_float : string -> option R)
    (breadth_cutoff evenness_cutoff : R) (fh : list string) : result (metrics * bool) :=
  depths ← read_depth_file py_float fh;
  let m := compute_metrics depths in
  let passed :=
    bool_decide (evenness m >= evenness_cutoff)%R
    && bool_decide (breadth m >= breadth_cutoff)%R in
  Ok (m, passed).

(** *** The reader's contract

    What one line contributes to the depth sequence, in the words of the
    contract: a blank line, a line with fewer than two whitespace-separated
    fields and a line whose second field does not parse contribute nothing;
    any other line contributes the number read from its second field. *)
Definition line_depth (py_float : string -> option R) (line : string) : option R :=
  match split line with
  | _ :: field2 :: _ => py_float field2
  | _ => None
  end.

(** Two lines that differ at most in their first whitespace-separated
    field: both are blank, or both have a first field and the same fields
    after it. *)
Definition differ_in_first_field (l1 l2 : string) : Prop :=
  (split l1 = [] /\ split l2 = []) \/
  exists p1 p2 rest, split l1 = p1 :: rest /\ split l2 = p2 :: rest.

End Coverage.

(** ** make_sensitivity.py *)

Module Sensitivity.

Definition DEFAULT_BITS : list Z := [20; 35; 50]%Z.
Definition DEFAULT_EVALUE : R := (1 / 100000)%R.

(** The row dictionary [read_tsv] builds: fixed keys, fixed types. *)
Record Hit := {
  query : string;
  target : string;
  evalue : R;
  bits : R;
  pident : R;
  alnlen : Z;
  qcov : R;
  tcov : R
}.

Section Reader.
Variable py_float : string -> option R.
Variable py_int : string -> option Z.

(** The dictionary display of [read_tsv]; its items are evaluated in
    order, so the first failing conversion is the one raised. *)
Definition row_of (r : list string) : result Hit :=
  r0 ← getitem r 0;
  r1 ← getitem r 1;
  r2 ← getitem r 2; v2 ← float py_float r2;
  r3 ← getitem r 3; v3 ← float py_float r3;
  r4 ← getitem r 4; v4 ← float py_float r4;
  r5 ← getitem r 5; v5 ← int py_int r5;
  r6 ← getitem r 6; v6 ← float py_float r6;
  r7 ← getitem r 7; v7 ← float py_float r7;
  Ok {| query := r0; target := r1; evalue := v2; bits := v3;
        pident := v4; alnlen := v5; qcov := v6; tcov := v7 |}.

(** The body of the loop of [read_tsv] for one row [r] of the reader. *)
Definition read_row (rows : list Hit) (r : list string) : result (list Hit) :=
  if bool_decide (r = []) then Ok rows                 (* if not r: continue *)
  else
    r0 ← getitem r 0;
    if startswith r0 "#" then Ok rows                  (* continue *)
    else if (length r <? 8)%nat then Raise ValueError_columns
    else
      row ← row_of r;
      Ok (rows ++ [row]).                              (* rows.append(row) *)

Fixpoint read_rows (rows : list Hit) (rdr : list (list string)) : result (list Hit) :=
  match rdr with
  | [] => Ok rows
  | r :: rdr' =>
      rows' ← read_row rows r;
      read_rows rows' rdr'
  end.

(** [read_tsv(path)]: [files] maps a path to the rows [csv.reader]
    yields for it. *)
Definition read_tsv (files : gmap string (list (list string))) (path : string)
  : result (list Hit) :=
  match files !! path with
  | None => Raise (FileNotFoundError path)
  | Some rdr => read_rows [] rdr
  end.
End Reader.

Record Summary := {
  threshold_bits : Z;
  evalue_cutoff : R;
  n_hits_total : nat;
  n_unique_queries_total : nat;
  n_hits_conservative : nat;
  n_unique_queries_conservative : nat
}.

(** [dict(r)]: a fresh dictionary with the items of the row. *)
Definition dict (r : Hit) : gmap string value :=
  list_to_map
    [("query", VStr (query r)); ("target", VStr (target r));
     ("evalue", VFloat (evalue r)); ("bits", VFloat (bits r));
     ("pident", VFloat (pident r)); ("alnlen", VInt (alnlen r));
     ("qcov", VFloat (qcov r)); ("tcov", VFloat (tcov r))].

(** The key [f'pass_bits_{b}']. *)
Definition pass_bits_key (b : Z) : string := "pass_bits_" +:+ pretty b.

Section Engine.
Variable rows : list Hit.
Variable bits_list : list Z.
Variables evalue_cutoff cons_pident cons_qcov : R.

(** The body of the first loop of [make_summaries], for threshold [b]. *)
Definition summary (b : Z) : Summary :=
  let filtered :=
    filter (fun r => evalue r <= evalue_cutoff /\ bits r >= IZR b)%R rows in
  let n_hits := length filtered in
  let unique_queries := size (list_to_set (query <$> filtered) : gset string) in
  let cons :=
    filter (fun r => pident r >= cons_pident /\ qcov r >= cons_qcov)%R filtered in
  let n_hits_cons := length cons in
  let unique_queries_cons := size (list_to_set (query <$> cons) : gset string) in
  Build_Summary
    b                     (* 'threshold_bits' *)
    evalue_cutoff         (* 'evalue_cutoff' *)
    n_hits                (* 'n_hits_total' *)
    unique_queries        (* 'n_unique_queries_total' *)
    n_hits_cons           (* 'n_hits_conservative' *)
    unique_queries_cons.  (* 'n_unique_queries_conservative' *)

(** [for b in bits_list: entry[f'pass_bits_{b}'] = ...] *)
Fixpoint bits_flags (r : Hit) (entry : gmap string value) (bs : list Z)
  : result (gmap string value) :=
  match bs with
  | [] => Ok entry
  | b :: bs' =>
      (* entry[f'pass_bits_{b}'] = (r['bits'] >= b and entry['pass_evalue']) *)
      v ← py_and (Ok (VBool (bool_decide (bits r >= IZR b)%R)))
                 (dict_getitem entry "pass_evalue");
      bits_flags r (<[pass_bits_key b := v]> entry) bs'
  end.

(** The body of the second loop of [make_summaries], for the row [r]. *)
Definition detailed_entry (r : Hit) : result (gmap string value) :=
  let entry := dict r in
  let entry :=
    <["pass_evalue" := VBool (bool_decide (evalue r <= evalue_cutoff)%R)]> entry in
  entry ← bits_flags r entry bits_list;
  v ← py_and (dict_getitem entry "pass_evalue")
             (py_and (Ok (VBool (bool_decide (pident r >= cons_pident)%R)))
                     (Ok (VBool (bool_decide (qcov r >= cons_qcov)%R))));
  Ok (<["pass_conservative" := v]> entry).

Fixpoint detailed_rows (detailed : list (gmap string value)) (rs : list Hit)
  : result (list (gmap string value)) :=
  match rs with
  | [] => Ok detailed
  | r :: rs' =>
      entry ← detailed_entry r;
      detailed_rows (detailed ++ [entry]) rs'      (* detailed.append(entry) *)
  end.

Definition make_summaries : result (list Summary * list (gmap string value)) :=
  let summaries :=
    fold_left (fun summaries b => summaries ++ [summary b]) bits_list [] in
  detailed ← detailed_rows [] rows;
  Ok (summaries, detailed).
End Engine.

(** A written CSV file: the rows handed to the writer, header first. *)
Definition table : Type := list (list value).

Definition summary_fieldnames : list string :=
  ["threshold_bits"; "evalue_cutoff"; "n_hits_total"; "n_unique_queries_total";
   "n_hits_conservative"; "n_unique_queries_conservative"].

(** The cells [DictWriter.writerow(s)] writes for a summary [s]. *)
Definition summary_cells (s : Summary) : list value :=
  [VInt (threshold_bits s); VFloat (evalue_cutoff s);
   VInt (Z.of_nat (n_hits_total s)); VInt (Z.of_nat (n_unique_queries_total s));
   VInt (Z.of_nat (n_hits_conservative s));
   VInt (Z.of_nat (n_unique_queries_conservative s))].

(** [write_summaries(summaries, out_path)], on the written files [disk]. *)
Definition write_summaries (summaries : list Summary) (out_path : string)
    (disk : gmap string table) : gmap string table :=
  let header := VStr <$> summary_fieldnames in
  <[out_path :=
      fold_left (fun w s => w ++ [summary_cells s]) summaries [header]]> disk.

Definition base_fields : list string :=
  ["query"; "target"; "evalue"; "bits"; "pident"; "alnlen"; "qcov"; "tcov";
   "pass_evalue"].

(** [write_detailed(detailed, bits_list, out_path)], on the written files
    [disk]. *)
Definition write_detailed (detailed : list (gmap string value)) (bits_list : list Z)
    (out_path : string) (disk : gmap string table) : gmap string table :=
  let bits_fields := pass_bits_key <$> bits_list in
  let extra := ["pass_conservative"] in
  let fieldnames := base_fields ++ bits_fields ++ extra in
  let header := VStr <$> fieldnames in
  <[out_path :=
      fold_left
        (fun w d =>
           (* row = {k: d.get(k, '') for k in fieldnames}; w.writerow(row) *)
           w ++ [(fun k => default (VStr "") (d !! k)) <$> fieldnames])
        detailed [header]]> disk.

Record Args := {
  infile : string;
  out_dir : string;
  args_bits : list Z;
  args_evalue : R;
  args_cons_pident : R;
  args_cons_qcov : R
}.

Section Main.
Variable py_float : string -> option R.
Variable py_int : string -> option Z.

(** [main()], for the parsed arguments [args]: [files] are the files
    that can be read, [disk] the files written so far.  The result is
    the written files at exit and how the run ended. *)
Definition main (args : Args) (files : gmap string (list (list string)))
    (disk : gmap string table) : gmap string table * result () :=
  match read_tsv py_float py_int files (infile args) with
  | Raise e => (disk, Raise e)
  | Ok rows =>
      match make_summaries rows (args_bits args) (args_evalue args)
              (args_cons_pident args) (args_cons_qcov args) with
      | Raise e => (disk, Raise e)
      | Ok (summaries, detailed) =>
          let out_summary :=
            rstrip_char "/" (out_dir args) +:+ "/Table_Sx_sensitivity.csv" in
          let out_detailed :=
            rstrip_char "/" (out_dir args) +:+ "/Table_Sx_detailed.csv" in
          let disk := write_summaries summaries out_summary disk in
          let disk := write_detailed detailed (args_bits args) out_detailed disk in
          (disk, Ok ())
      end
  end.
End Main.

(** *** The reader's contract *)

Section Contract.
Variable py_float : string -> option R.
Variable py_int : string -> option Z.

(** A comment row: its first field starts with the comment marker. *)
Definition is_comment (r : list string) : Prop :=
  exists r0 rest, r = r0 :: rest /\ startswith r0 "#" = true.

(** The numeric columns the reader consumes hold numbers: columns 3, 4, 5,
    7 and 8 floats, column 6 an integer (indices from 0 below). *)
Definition numeric_ok (r : list string) : Prop :=
  (forall i s, i ∈ [2; 3; 4; 6; 7] -> r !! i = Some s -> is_Some (py_float s)) /\
  (forall s, r !! 5 = Some s -> is_Some (py_int s)).

(** The rows the reader takes without an error: empty rows, comment rows,
    and rows of eight or more fields whose numeric columns hold numbers. *)
Definition row_accepted (r : list string) : Prop :=
  r = [] \/ is_comment r \/ (8 <= length r /\ numeric_ok r).

(** What a parse error [e] says about the row [r] it was raised for: the
    fixed column-count message for a short row, or the text of the field
    that is not a number. *)
Definition parse_error_of (r : list string) (e : exn) : Prop :=
  match e with
  | ValueError_columns => length r < 8
  | ValueError_float s =>
      exists i, i ∈ [2; 3; 4; 6; 7] /\ r !! i = Some s /\ py_float s = None
  | ValueError_int s => r !! 5 = Some s /\ py_int s = None
  | _ => False
  end.

(** A reader locates its parse errors when the file and the line of the
    first offending row can be read off the exception it raises. *)
Definition locates_parse_errors
    (read : gmap string (list (list string)) -> string -> result (list Hit)) : Prop :=
  exists place : exn -> string * nat,
  forall files path pre r post e,
    files !! path = Some (pre ++ r :: post) ->
    Forall row_accepted pre -> ~ row_accepted r ->
    read files path = Raise e ->
    place e = (path, S (length pre)).
End Contract.

(** A flag of a detailed entry: the key [k] holds a boolean that is true
    exactly when [P] holds. *)
Definition flag (entry : gmap string value) (k : string) (P : Prop) : Prop :=
  exists b : bool, entry !! k = Some (VBool b) /\ (b = true <-> P).

(** The eight items of a row, in column order. *)
Definition hit_cells (r : Hit) : list value :=
  [VStr (query r); VStr (target r); VFloat (evalue r); VFloat (bits r);
   VFloat (pident r); VInt (alnlen r); VFloat (qcov r); VFloat (tcov r)].

End Sensitivity.

(** ** Plain decimal literals

    The readers above take [float(s)] and [int(s)] as parameters.  To run
    them on concrete files we use the plain decimal literals these
    built-ins accept, [[+-]digits], and for floats also
    [[+-]digits[.digits][e[+-]digits]], read exactly.  The built-ins accept
    more (surrounding blanks, underscores, [inf], [nan]); every theorem
    below holds for any reader. *)

Module Decimal.

Definition digit (c : ascii) : option Z := Z.of_nat <$> Ascii.is_nat c.

Fixpoint digits_from (acc : Z) (s : string) : option Z :=
  match s with
  | EmptyString => Some acc
  | String c s' => d ← digit c; digits_from (10 * acc + d)%Z s'
  end.

Definition natural (s : string) : option Z :=
  match s with
  | EmptyString => None
  | _ => digits_from 0 s
  end.

Definition signed {A} (neg : A -> A) (body : string -> option A) (s : string)
  : option A :=
  match s with
  | String "-" s' => neg <$> body s'
  | String "+" s' => body s'
  | _ => body s
  end.

Definition decimal_int : string -> option Z := signed Z.opp natural.

(** The part of [s] before the first character satisfying [p], and the
    part after it when there is one. *)
Fixpoint break_at (p : ascii -> bool) (s : string) : string * option string :=
  match s with
  | EmptyString => (EmptyString, None)
  | String c s' =>
      if p c then (EmptyString, Some s')
      else let '(a, b) := break_at p s' in (String c a, b)
  end.

(** The digits of a mantissa as an integer, with the number of digits
    after the point. *)
Definition mantissa (s : string) : option (Z * Z) :=
  match break_at (Ascii.eqb ".") s with
  | (ip, None) => m ← natural ip; Some (m, 0%Z)
  | (ip, Some fp) =>
      match ip, fp with
      | EmptyString, EmptyString => None
      | _, _ =>
          i ← digits_from 0 ip;
          m ← digits_from i fp;
          Some (m, Z.of_nat (String.length fp))
      end
  end.

Definition unsigned_float (s : string) : option R :=
  let '(ms, es) := break_at (fun c => Ascii.eqb c "e" || Ascii.eqb c "E") s in
  '(m, k) ← mantissa ms;
  e ← match es with
      | None => Some 0%Z
      | Some x => decimal_int x
      end;
  Some (IZR m * powerRZ 10 (e - k))%R.

Definition decimal_float : string -> option R := signed Ropp unsigned_float.

End Decimal.

Export Decimal.

(** ** Concrete inputs *)

Module Examples.
Import Coverage Sensitivity.

(** A depth file, and the same file with other first fields. *)
Definition depth_file : list string := ["1 0"; "2 5"; "3 5"; "4 0"].
Definition depth_file_renumbered : list string := ["x 0"; "chr1:2 5"; "-7  5"; "pos   0"].

(** A depth file with a blank line, a line of blanks, a line with one
    field and a line whose depth is not a number. *)
Definition ragged_depth_file : list string :=
  ["1 10"; ""; "   "; "2"; "3 x"; "4 5"].

(** A depth file whose only line carries a negative depth. *)
Definition negative_depth_file : list string := ["1 -1"].

(** The row [q1 t1 1e-6 40 35 100 60 60], and the same row without its
    last column. *)
Definition full_row : list string :=
  ["q1"; "t1"; "1e-6"; "40"; "35"; "100"; "60"; "60"].
Definition short_row : list string :=
  ["q1"; "t1"; "1e-6"; "40"; "35"; "100"; "60"].

Definition long_row : list string := full_row ++ ["extra"; "columns"].

(** Three input files: the short row is line 1 of the first and line 2 of
    the second; the third has a row with ten fields. *)
Definition tsv_files : gmap string (list (list string)) :=
  {[ "a.tsv" := [short_row]; "b.tsv" := [full_row; short_row];
     "c.tsv" := [long_row] ]}.

Definition args_for (path : string) : Args :=
  {| infile := path; out_dir := "supplementary/";
     args_bits := DEFAULT_BITS; args_evalue := DEFAULT_EVALUE;
     args_cons_pident := 30; args_cons_qcov := 50 |}.

(** The row [q1 t1 1e-6 40 35 100 60 60] as read. *)
Definition full_hit : Hit :=
  {| query := "q1"; target := "t1"; evalue := 1 / 1000000; bits := 40;
     pident := 35; alnlen := 100; qcov := 60; tcov := 60 |}.

Definition weak_hit : Hit :=
  {| query := "q2"; target := "t1"; evalue := 1 / 1000000; bits := 25;
     pident := 20; alnlen := 80; qcov := 60; tcov := 40 |}.

End Examples.

(** ** compute_coverage_metrics.py: the main loop *)

Module CoverageMain.
Import Coverage.

(** [s.endswith(suffix)] *)
Fixpoint endswith (s suffix : string) : bool :=
  String.eqb s suffix ||
  match s with
  | EmptyString => false
  | String _ s' => endswith s' suffix
  end.

(** The part of [s] before the last occurrence of the non-empty [sep],
    when [sep] occurs in [s]. *)
Fixpoint before_last (sep s : string) : option string :=
  match s with
  | EmptyString => None
  | String c s' =>
      match before_last sep s' with
      | Some pre => Some (String c pre)
      | None => if String.prefix sep s then Some EmptyString else None
      end
  end.

(** [fn.rsplit('.depth', 1)[0]] *)
Definition target_of (fn : string) : string :=
  default fn (before_last ".depth" fn).

(** [os.path.join(a, b)] *)
Definition join (a b : string) : string :=
  if String.prefix "/" b then b
  else if String.eqb a "" || endswith a "/" then a +:+ b
  else a +:+ "/" +:+ b.

Record Args := {
  in_dir : string;
  out : string;
  breadth_cutoff : R;
  evenness_cutoff : R
}.

Definition header : list value :=
  VStr <$> ["target"; "breadth_pct"; "mean_depth"; "cov_evenness"; "pass_conservative"].

Section Main.
Variable py_float : string -> option R.
(** The format [f'{x:.3f}'] of a float. *)
Variable fmt3 : R -> string.

(** The row [main] writes for a target. *)
Definition report_cells (target : string) (m : metrics) (passed : bool) : list value :=
  [VStr target; VStr (fmt3 (breadth m)); VStr (fmt3 (mean_depth m));
   VStr (fmt3 (evenness m)); VInt (if passed then 1 else 0)].

(** The loop of [main] over the sorted file names [fns]: [w] holds the
    rows written so far, [files] maps a path to the lines of its file. *)
Fixpoint write_rows (args : Args) (files : gmap string (list string))
    (w : list (list value)) (fns : list string) : list (list value) * result () :=
  match fns with
  | [] => (w, Ok ())
  | fn :: fns' =>
      let path := join (in_dir args) fn in
      let target := target_of fn in
      match files !! path with
      | None => (w, Raise (FileNotFoundError path))
      | Some fh =>
          match target_row py_float (breadth_cutoff args) (evenness_cutoff args) fh with
          | Raise e => (w, Raise e)
          | Ok (m, passed) =>
              write_rows args files (w ++ [report_cells target m passed]) fns'
          end
      end
  end.

(** The line [line] is the row of the depth file named [fn]: the file can
    be read and [line] holds its target and its metrics. *)
Definition row_for (args : Args) (files : gmap string (list string))
    (fn : string) (line : list value) : Prop :=
  exists fh m passed,
    files !! join (in_dir args) fn = Some fh /\
    target_row py_float (breadth_cutoff args) (evenness_cutoff args) fh = Ok (m, passed) /\
    line = report_cells (target_of fn) m passed.

(** [main()], for the parsed arguments [args]: [dirs] maps a directory to
    the names [os.listdir] gives for it, in any order; [files] are the
    files that can be read, [disk] the files written so far.  The output
    file is opened before the first depth file is read, and holds what was
    written when an exception ends the run. *)
Definition main (args : Args) (dirs : gmap string (list string))
    (files : gmap string (list string)) (disk : gmap string (list (list value)))
  : gmap string (list (list value)) * result () :=
  match dirs !! in_dir args with
  | None => (disk, Raise (FileNotFoundError (in_dir args)))
  | Some listing =>
      let files_ := filter (fun f => endswith f ".depth" = true) listing in
      let files_ := merge_sort String.le files_ in          (* files.sort() *)
      let '(w, r) := write_rows args files [header] files_ in
      (<[out args := w]> disk, r)
  end.
End Main.

(** A directory with two depth files and another file, and its files. *)
Definition example_dirs : gmap string (list string) :=
  {[ "cov" := ["b.depth"; "notes.txt"; "a.depth"] ]}.

Definition example_files : gmap string (list string) :=
  {[ "cov/a.depth" := ["1 0"; "2 5"; "3 5"; "4 0"];
     "cov/b.depth" := ["1 10"; "2 10"; "3 10"] ]}.

Definition example_args : Args :=
  {| in_dir := "cov"; out := "Table_Sx_coverage.csv";
     breadth_cutoff := 5; evenness_cutoff := 1 / 2 |}.

(** The same directory when the file of [b.depth] cannot be read, and a
    directory without depth files. *)
Definition example_files_a : gmap string (list string) :=
  {[ "cov/a.depth" := ["1 0"; "2 5"; "3 5"; "4 0"] ]}.

Definition other_dirs : gmap string (list string) :=
  {[ "cov" := ["notes.txt"; "depth"] ]}.

(** A stand-in for the number format, for running [main]. *)
Definition any_format : R -> string := fun _ => "0.000".

End CoverageMain.

(** ** make_sensitivity.py: more vocabulary *)

Module SensitivityMore.
Import Sensitivity.

Global Instance value_eq_dec : EqDecision value.
Proof. solve_decision. Defined.

(** A data row: not empty, and its first field does not start with the
    comment marker. *)
Definition is_data_row (r : list string) : bool :=
  match r with
  | [] => false
  | r0 :: _ => negb (startswith r0 "#")
  end.

Section Fields.
Variable py_float : string -> option R.
Variable py_int : string -> option Z.

(** The items of the hit [h] are the first eight fields of the row [r],
    the numeric ones converted. *)
Definition fields_of (r : list string) (h : Hit) : Prop :=
  r !! 0 = Some (query h) /\
  r !! 1 = Some (target h) /\
  (exists s, r !! 2 = Some s /\ py_float s = Some (evalue h)) /\
  (exists s, r !! 3 = Some s /\ py_float s = Some (bits h)) /\
  (exists s, r !! 4 = Some s /\ py_float s = Some (pident h)) /\
  (exists s, r !! 5 = Some s /\ py_int s = Some (alnlen h)) /\
  (exists s, r !! 6 = Some s /\ py_float s = Some (qcov h)) /\
  (exists s, r !! 7 = Some s /\ py_float s = Some (tcov h)).
End Fields.

(** The field names of the detailed table. *)
Definition detailed_fieldnames (bits_list : list Z) : list string :=
  base_fields ++ (pass_bits_key <$> bits_list) ++ ["pass_conservative"].

(** The two output paths of [main]. *)
Definition out_summary (args : Args) : string :=
  rstrip_char "/" (out_dir args) +:+ "/Table_Sx_sensitivity.csv".
Definition out_detailed (args : Args) : string :=
  rstrip_char "/" (out_dir args) +:+ "/Table_Sx_detailed.csv".

(** An input file of comments and empty rows only, and one with a
    comment, a data row and an empty row. *)
Definition more_files : gmap string (list (list string)) :=
  {[ "comments.tsv" := [["# query"; "target"]; []; ["#"]];
     "hits.tsv" := [["# query"; "target"]; Examples.full_row; []] ]}.

End SensitivityMore.

(** ** Tactics *)

(** Membership in a list given by its elements. *)
Ltac elem_of_literal :=
  repeat first [apply list_elem_of_here | apply list_elem_of_further].

(** Evaluates the integers inside the reals that the decimal readers
    build, and closes the goal by linear arithmetic. *)
Ltac decimal_value :=
  repeat match goal with
  | |- context [IZR ?z] =>
      let z' := eval vm_compute in z in progress change z with z'
  | |- context [powerRZ ?x ?z] =>
      let z' := eval vm_compute in z in progress change z with z'
  end;
  simpl powerRZ; lra.

(** [Hf] says that the float columns of a row parse; column [i] holds [s],
    which does not. *)
Ltac float_column_fails Hf i s :=
  solve [ destruct (Hf i s) as [? ?]; [elem_of_literal | reflexivity | congruence] ].

(** Column [i] is the float column that holds the field of the error. *)
Ltac float_column_named i :=
  solve [ exists i; split; [elem_of_literal | split; [reflexivity | assumption]] ].

(** * Properties *)

(** ** Strings *)

Lemma split_from_cons (tok : option string) (c : ascii) (s : string) :
  split_from tok (String c s) =
  if isspace c then
    match tok with
    | Some t => t :: split_from None s
    | None => split_from None s
    end
  else split_from (Some (default EmptyString tok +:+ String c EmptyString)) s.
Proof. reflexivity. Qed.

Lemma split_lstrip (s : string) : split (lstrip s) = split s.
Proof.
  unfold split. induction s as [|c s IH]; [reflexivity|].
  rewrite split_from_cons. cbn [lstrip].
  destruct (isspace c) eqn:Hc; [exact IH|].
  by rewrite split_from_cons, Hc.
Qed.

Lemma split_from_rstrip (s : string) (tok : option string) :
  split_from tok (rstrip s) = split_from tok s.
Proof.
  revert tok. induction s as [|c s IH]; intros tok; [reflexivity|].
  cbn [rstrip]. destruct (rstrip s) as [|d t] eqn:Hr.
  - rewrite (split_from_cons tok c s). destruct (isspace c) eqn:Hc.
    + rewrite <- (IH None). by destruct tok.
    + rewrite <- IH. by rewrite split_from_cons, Hc.
  - rewrite (split_from_cons tok c s), (split_from_cons tok c (String d t)).
    by rewrite !IH.
Qed.

(** Stripping a line first does not change its fields. *)
Lemma split_strip (s : string) : split (strip s) = split s.
Proof. unfold strip, split. rewrite split_from_rstrip. apply split_lstrip. Qed.

(** ** Sums *)

Lemma fold_left_Rplus (l : list R) (a : R) :
  fold_left Rplus l a = (a + sum l)%R.
Proof.
  unfold sum. revert a. induction l as [|x l IH]; intros a; simpl.
  - lra.
  - rewrite (IH (a + x)%R), (IH (0 + x)%R). lra.
Qed.

Lemma sum_nil : sum [] = 0%R.
Proof. reflexivity. Qed.

Lemma sum_cons (x : R) (l : list R) : sum (x :: l) = (x + sum l)%R.
Proof. unfold sum at 1. simpl. rewrite fold_left_Rplus. lra. Qed.

Lemma sum_nonneg (l : list R) : Forall (fun d => 0 <= d)%R l -> (0 <= sum l)%R.
Proof.
  induction 1 as [|x l Hx _ IH].
  - rewrite sum_nil. lra.
  - rewrite sum_cons. lra.
Qed.

Lemma INR_length_pos {A} (x : A) (l : list A) : (0 < INR (length (x :: l)))%R.
Proof. apply lt_0_INR. simpl. lia. Qed.

(** A loop that appends one item per element builds the mapped list. *)
Lemma loop_append {A B} (f : A -> B) (l : list A) (init : list B) :
  fold_left (fun acc x => acc ++ [f x]) l init = init ++ (f <$> l).
Proof.
  revert init. induction l as [|x l IH]; intros init; cbn.
  - by rewrite app_nil_r.
  - by rewrite IH, <- app_assoc.
Qed.

(** ** The coverage reader *)

Section CoverageReader.
Import Coverage.
Context (py_float : string -> option R).

Lemma read_depth_line_spec (depths : list R) (line : string) :
  read_depth_line py_float depths line
  = Ok (depths ++ option_list (line_depth py_float line)).
Proof.
  unfold read_depth_line, line_depth. rewrite <- (split_strip line).
  destruct (String.eqb_spec (strip line) "") as [->|_].
  { simpl. by rewrite app_nil_r. }
  destruct (split (strip line)) as [|p0 [|p1 parts]]; simpl;
    try by rewrite app_nil_r.
  unfold float. destruct (py_float p1); simpl; [reflexivity|].
  by rewrite app_nil_r.
Qed.

Lemma read_depth_lines_spec (fh : list string) (depths : list R) :
  read_depth_lines py_float depths fh = Ok (depths ++ omap (line_depth py_float) fh).
Proof.
  revert depths. induction fh as [|line fh IH]; intros depths; simpl.
  - by rewrite app_nil_r.
  - rewrite read_depth_line_spec. simpl. rewrite IH, <- app_assoc.
    by destruct (line_depth py_float line).
Qed.

Lemma read_depth_file_spec (fh : list string) :
  read_depth_file py_float fh = Ok (omap (line_depth py_float) fh).
Proof. unfold read_depth_file. by rewrite read_depth_lines_spec. Qed.

Lemma line_depth_first_field (l1 l2 : string) :
  differ_in_first_field l1 l2 -> line_depth py_float l1 = line_depth py_float l2.
Proof.
  unfold line_depth. intros [[-> ->]|(p1 & p2 & rest & -> & ->)]; reflexivity.
Qed.

Lemma omap_line_depth_first_field (fh1 fh2 : list string) :
  Forall2 differ_in_first_field fh1 fh2 ->
  omap (line_depth py_float) fh1 = omap (line_depth py_float) fh2.
Proof.
  induction 1 as [|l1 l2 fh1 fh2 Hl _ IH]; [reflexivity|].
  csimpl. by rewrite (line_depth_first_field _ _ Hl), IH.
Qed.

(** C5.  The coverage reader never raises on the content of a file: it
    returns, for every list of lines, the depths of the lines that have a
    second field that parses, in order; blank lines, lines with fewer than
    two fields and lines whose second field does not parse are left out,
    and every other line gives exactly one depth. *)
Theorem read_depth_file_tolerant (fh : list string) :
  read_depth_file py_float fh = Ok (omap (line_depth py_float) fh) /\
  (forall line, split line = [] -> line_depth py_float line = None) /\
  (forall line, length (split line) < 2 -> line_depth py_float line = None) /\
  (forall line p0 p1 rest, split line = p0 :: p1 :: rest ->
     line_depth py_float line = py_float p1).
Proof.
  split; [apply read_depth_file_spec|]. unfold line_depth. repeat split.
  - by intros line ->.
  - intros line Hlen. destruct (split line) as [|? [|? ?]]; [done | done | simpl in Hlen; lia].
  - by intros line p0 p1 rest ->.
Qed.

(** C10.  The position column is never read: two files whose lines differ
    at most in their first whitespace-separated field give the same depth
    sequence, hence the same metrics and the same pass flag. *)
Theorem position_column_unread (fh1 fh2 : list string) (breadth_cutoff evenness_cutoff : R) :
  Forall2 differ_in_first_field fh1 fh2 ->
  (exists depths,
      read_depth_file py_float fh1 = Ok depths /\
      read_depth_file py_float fh2 = Ok depths) /\
  target_row py_float breadth_cutoff evenness_cutoff fh1
  = target_row py_float breadth_cutoff evenness_cutoff fh2.
Proof.
  intros Hdiff. apply omap_line_depth_first_field in Hdiff.
  unfold target_row. rewrite !read_depth_file_spec, Hdiff. eauto.
Qed.
End CoverageReader.

Section CoverageExamples.
Import Coverage Examples.

Lemma depth_files_differ_in_first_field :
  Forall2 differ_in_first_field depth_file depth_file_renumbered.
Proof.
  unfold depth_file, depth_file_renumbered.
  repeat (apply List.Forall2_cons; [right; do 3 eexists; split; reflexivity|]).
  apply List.Forall2_nil.
Defined.

(** The renumbered depth file gives the row of the original one. *)
Lemma position_column_unread_witness :
  target_row decimal_float 5 (1 / 2) depth_file
  = target_row decimal_float 5 (1 / 2) depth_file_renumbered.
Proof.
  exact (proj2 (position_column_unread decimal_float depth_file depth_file_renumbered
                  5 (1 / 2) depth_files_differ_in_first_field)).
Defined.

(** A file with blank, short and non-numeric lines is read without an
    error, as the depths of its two valid lines. *)
Lemma read_depth_file_tolerant_witness :
  read_depth_file decimal_float ragged_depth_file
  = Ok (omap (line_depth decimal_float) ragged_depth_file) /\
  omap (line_depth decimal_float) ragged_depth_file
  = [(IZR 10 * powerRZ 10 0)%R; (IZR 5 * powerRZ 10 0)%R] /\
  line_depth decimal_float "2" = None /\
  line_depth decimal_float "4 5" = decimal_float "5".
Proof.
  pose proof (read_depth_file_tolerant decimal_float ragged_depth_file)
    as (Hread & _ & Hshort & Hfield).
  split; [exact Hread|]. split; [reflexivity|]. split.
  - apply Hshort. simpl. lia.
  - apply (Hfield "4 5" "4" "5" []). reflexivity.
Defined.
End CoverageExamples.

(** ** The coverage metrics *)

Section CoverageMetrics.
Import Coverage.

Lemma breadth_range (depths : list R) :
  (0 <= breadth (compute_metrics depths) <= 100)%R.
Proof.
  destruct depths as [|d l]; [simpl; lra|].
  unfold compute_metrics. cbn [breadth].
  set (n := INR (length (d :: l))).
  set (c := INR (length (filter _ (d :: l)))).
  assert (0 < n)%R by apply INR_length_pos.
  assert (0 <= c)%R by apply pos_INR.
  assert (c <= n)%R by (apply le_INR, length_filter).
  assert (0 <= c / n <= 1)%R; [|lra].
  split.
  - apply Rmult_le_pos; [lra|]. left. by apply Rinv_0_lt_compat.
  - apply Rmult_le_reg_r with n; [lra|]. unfold Rdiv. rewrite Rmult_assoc, Rinv_l; lra.
Qed.

Lemma evenness_range (depths : list R) :
  (0 <= evenness (compute_metrics depths) <= 1)%R.
Proof.
  destruct depths as [|d l]; [simpl; lra|].
  unfold compute_metrics. cbn [evenness].
  repeat case_decide; lra.
Qed.

Lemma mean_depth_nonneg (depths : list R) :
  Forall (fun d => 0 <= d)%R depths -> (0 <= mean_depth (compute_metrics depths))%R.
Proof.
  intros Hpos. destruct depths as [|d l]; [simpl; lra|].
  unfold compute_metrics. cbn [mean_depth].
  apply Rmult_le_pos; [by apply sum_nonneg|].
  left. apply Rinv_0_lt_compat, INR_length_pos.
Qed.

Lemma mean_depth_singleton (d : R) : mean_depth (compute_metrics [d]) = d.
Proof.
  unfold compute_metrics. cbn [mean_depth length].
  rewrite sum_cons, sum_nil. simpl INR. field.
Qed.

Lemma evenness_singleton (d : R) :
  evenness (compute_metrics [d]) = if decide (0 < d)%R then 1%R else 0%R.
Proof.
  unfold compute_metrics. cbn [evenness length Nat.ltb Nat.leb].
  rewrite sum_cons, sum_nil. simpl INR.
  replace ((d + 0) / 1)%R with d by field.
  repeat case_decide; lra.
Qed.

Lemma evenness_nonpositive_mean (depths : list R) :
  (mean_depth (compute_metrics depths) <= 0)%R ->
  evenness (compute_metrics depths) = 0%R.
Proof.
  destruct depths as [|d l]; [reflexivity|].
  unfold compute_metrics. cbn [evenness mean_depth]. intros H.
  case_decide; [reflexivity | contradiction].
Qed.

(** C1, as the code has it.  An empty depth sequence gives breadth 0, mean
    depth 0 and evenness 0, and so does a file without a valid depth line,
    with no error; a sequence whose mean depth is at most 0 has evenness 0;
    a single depth [d] has evenness 1 when [d] is positive and 0
    otherwise. *)
Theorem evenness_zero_cases :
  compute_metrics [] = zero_metrics /\
  (forall py_float fh,
     Forall (fun line => line_depth py_float line = None) fh ->
     exists depths,
       read_depth_file py_float fh = Ok depths /\ compute_metrics depths = zero_metrics) /\
  (forall depths,
     (mean_depth (compute_metrics depths) <= 0)%R ->
     evenness (compute_metrics depths) = 0%R) /\
  (forall d, evenness (compute_metrics [d]) = if decide (0 < d)%R then 1%R else 0%R).
Proof.
  split; [reflexivity|]. split; [|split].
  - intros py_float fh Hnone. exists []. split; [|reflexivity].
    rewrite read_depth_file_spec. f_equal.
    induction Hnone as [|line fh Hline _ IH]; [reflexivity|].
    csimpl. by rewrite Hline.
  - apply evenness_nonpositive_mean.
  - apply evenness_singleton.
Qed.

(** Depths 2 and -2 have mean 0, so evenness 0. *)
Lemma evenness_zero_cases_witness :
  evenness (compute_metrics [2; -2]%R) = 0%R.
Proof.
  apply (proj1 (proj2 (proj2 evenness_zero_cases))).
  unfold compute_metrics. cbn [mean_depth length].
  rewrite !sum_cons, sum_nil. simpl INR. lra.
Defined.

(** C1 as stated fails: the single depth 10 has evenness 1, not 0. *)
Lemma singleton_evenness_is_one :
  evenness (compute_metrics [10%R]) = 1%R /\
  evenness (compute_metrics [10%R]) <> 0%R.
Proof.
  rewrite evenness_singleton. case_decide; [split; [reflexivity | lra] | lra].
Qed.

(** C2, as the code has it.  For every depth sequence the breadth is in
    [0,100] and the evenness in [0,1]; the mean depth is at least 0 when no
    depth is negative. *)
Theorem metrics_ranges (depths : list R) :
  (0 <= breadth (compute_metrics depths) <= 100)%R /\
  (0 <= evenness (compute_metrics depths) <= 1)%R /\
  (Forall (fun d => 0 <= d)%R depths -> (0 <= mean_depth (compute_metrics depths))%R).
Proof.
  split; [apply breadth_range|]. split; [apply evenness_range | apply mean_depth_nonneg].
Qed.

Lemma metrics_ranges_witness :
  (0 <= mean_depth (compute_metrics [0; 5; 5; 0]%R))%R.
Proof.
  apply (proj2 (proj2 (metrics_ranges [0; 5; 5; 0]%R))).
  repeat constructor; lra.
Defined.

(** C2 as stated fails: the line [1 -1] is read as the depth -1, and the
    mean depth of that sequence is -1. *)
Lemma negative_depth_negative_mean :
  exists depths,
    read_depth_file decimal_float Examples.negative_depth_file = Ok depths /\
    depths = [(-1)%R] /\
    (mean_depth (compute_metrics depths) < 0)%R.
Proof.
  exists [(-1)%R]. split; [|split; [reflexivity|]].
  - rewrite read_depth_file_spec. cbn. unfold line_depth. cbn. do 2 f_equal. decimal_value.
  - rewrite mean_depth_singleton. lra.
Qed.
End CoverageMetrics.

(** ** The sensitivity reader *)

Section SensitivityReader.
Import Sensitivity.
Context (py_float : string -> option R) (py_int : string -> option Z).
Local Abbreviation row_of := (row_of py_float py_int).
Local Abbreviation read_row := (read_row py_float py_int).
Local Abbreviation read_rows := (read_rows py_float py_int).
Local Abbreviation read_tsv := (read_tsv py_float py_int).
Local Abbreviation main := (main py_float py_int).
Local Abbreviation row_accepted := (row_accepted py_float py_int).
Local Abbreviation numeric_ok := (numeric_ok py_float py_int).
Local Abbreviation parse_error_of := (parse_error_of py_float py_int).

Lemma parse_error_is_ValueError (r : list string) (e : exn) :
  parse_error_of r e -> is_ValueError e = true.
Proof. by destruct e. Qed.

Lemma row_of_take (r : list string) : row_of (take 8 r) = row_of r.
Proof. do 8 (destruct r as [|? r]; [reflexivity|]). reflexivity. Qed.

Lemma short_take (r : list string) :
  (length (take 8 r) <? 8) = (length r <? 8).
Proof.
  rewrite length_take.
  destruct (Nat.ltb_spec (length r) 8), (Nat.ltb_spec (8 `min` length r) 8);
    try reflexivity; lia.
Qed.

Lemma read_row_take (rows : list Hit) (r : list string) :
  read_row rows (take 8 r) = read_row rows r.
Proof.
  unfold Sensitivity.read_row. rewrite row_of_take, short_take.
  destruct r as [|r0 r]; reflexivity.
Qed.

Lemma read_rows_take (rdr : list (list string)) (rows : list Hit) :
  read_rows rows (take 8 <$> rdr) = read_rows rows rdr.
Proof.
  revert rows. induction rdr as [|r rdr IH]; intros rows; [reflexivity|].
  csimpl. rewrite read_row_take. destruct (read_row rows r); simpl; auto.
Qed.

(** A row of eight or more fields raises exactly when a consumed numeric
    column does not parse, and then with the error of that conversion. *)
Lemma row_of_cases (r : list string) :
  8 <= length r ->
  (numeric_ok r /\ exists row, row_of r = Ok row) \/
  (~ numeric_ok r /\ exists e, parse_error_of r e /\ row_of r = Raise e).
Proof.
  intros Hlen.
  do 8 (destruct r as [|? r]; [simpl in Hlen; lia|]). clear Hlen.
  unfold Sensitivity.row_of, Sensitivity.numeric_ok, float, int. cbn.
  repeat match goal with
  | |- context [py_float ?s] =>
      destruct (py_float s) eqn:?; cbn;
      [| right; split;
         [intros [Hf _];
          first [ float_column_fails Hf 2 s | float_column_fails Hf 3 s
                | float_column_fails Hf 4 s | float_column_fails Hf 6 s
                | float_column_fails Hf 7 s ]
         | eexists; split; [|reflexivity]; cbn;
           first [ float_column_named 2 | float_column_named 3
                 | float_column_named 4 | float_column_named 6
                 | float_column_named 7 ]]]
  | |- context [py_int ?s] =>
      destruct (py_int s) eqn:?; cbn;
      [| right; split;
         [intros [_ Hi]; destruct (Hi s) as [? ?]; [reflexivity | congruence]
         | eexists; split; [|reflexivity]; by cbn]]
  end.
  left. split; [|eauto]. split.
  - intros i s' Hi Hs.
    rewrite !elem_of_cons, elem_of_nil in Hi.
    destruct Hi as [->|[->|[->|[->|[->|[]]]]]]; cbn in Hs; simplify_eq; eauto.
  - intros s' Hs. cbn in Hs. simplify_eq. eauto.
Qed.

Lemma short_row_raises (rows : list Hit) (r : list string) :
  r <> [] -> ~ is_comment r -> length r < 8 ->
  read_row rows r = Raise ValueError_columns.
Proof.
  intros Hne Hc Hlen. unfold Sensitivity.read_row.
  destruct r as [|r0 r]; [done|].
  rewrite bool_decide_eq_false_2 by done.
  cbn [getitem lookup list_lookup mbind result_bind].
  destruct (startswith r0 "#") eqn:Hs; [destruct Hc; by exists r0, r|].
  destruct (Nat.ltb_spec (length (r0 :: r)) 8); [reflexivity | lia].
Qed.

Lemma short_row_rejected (r : list string) :
  r <> [] -> ~ is_comment r -> length r < 8 -> ~ row_accepted r.
Proof. intros Hne Hc Hlen [?|[?|[? _]]]; [done | done | lia]. Qed.

(** Each row is either taken or raises, whatever was read before it. *)
Lemma read_row_cases (r : list string) :
  (row_accepted r /\ forall rows, exists rows', read_row rows r = Ok rows') \/
  (~ row_accepted r /\
   exists e, parse_error_of r e /\ forall rows, read_row rows r = Raise e).
Proof.
  destruct r as [|r0 r]; [left; split; [by left | by eexists]|].
  destruct (startswith r0 "#") eqn:Hs.
  { left. split; [right; left; by exists r0, r|].
    intros rows. exists rows. unfold Sensitivity.read_row.
    rewrite bool_decide_eq_false_2 by done. cbn. by rewrite Hs. }
  assert (~ is_comment (r0 :: r)) as Hc.
  { intros (? & ? & ? & ?). simplify_eq. congruence. }
  destruct (Nat.lt_ge_cases (length (r0 :: r)) 8) as [Hlen|Hlen].
  { right. split; [by apply short_row_rejected|].
    exists ValueError_columns. split; [done|].
    intros rows. by apply short_row_raises. }
  assert (forall rows, read_row rows (r0 :: r)
                       = row ← row_of (r0 :: r); Ok (rows ++ [row])) as Heq.
  { intros rows. unfold Sensitivity.read_row.
    rewrite bool_decide_eq_false_2 by done.
    cbn [getitem lookup list_lookup mbind result_bind]. rewrite Hs.
    destruct (Nat.ltb_spec (length (r0 :: r)) 8); [lia | reflexivity]. }
  destruct (row_of_cases _ Hlen) as [[Hn [row Hrow]]|[Hn (e & He & Hrow)]].
  - left. split; [right; right; done|].
    intros rows. rewrite Heq, Hrow. by eexists.
  - right. split; [intros [?|[?|[_ ?]]]; done|].
    exists e. split; [done|]. intros rows. by rewrite Heq, Hrow.
Qed.

(** The error of the first offending row is the error of the run. *)
Lemma read_rows_first_rejected (pre : list (list string)) (r : list string)
    (post : list (list string)) (e : exn) (rows : list Hit) :
  Forall row_accepted pre -> read_row [] r = Raise e ->
  read_rows rows (pre ++ r :: post) = Raise e.
Proof.
  intros Hpre Hr. revert rows.
  induction Hpre as [|a pre Ha _ IH]; intros rows; cbn [app Sensitivity.read_rows].
  - destruct (read_row_cases r) as [[_ Hok]|[_ (e' & _ & Hraise)]].
    + destruct (Hok []) as [? ?]. congruence.
    + rewrite Hraise. rewrite Hraise in Hr. by simplify_eq.
  - destruct (read_row_cases a) as [[_ Hok]|[? _]]; [|done].
    destruct (Hok rows) as [rows' ->]. apply IH.
Qed.

Lemma read_rows_cases (rdr : list (list string)) (rows : list Hit) :
  (Forall row_accepted rdr /\ exists hits, read_rows rows rdr = Ok hits) \/
  (exists pre r post e,
      rdr = pre ++ r :: post /\ Forall row_accepted pre /\ ~ row_accepted r /\
      parse_error_of r e /\ read_row [] r = Raise e /\
      read_rows rows rdr = Raise e).
Proof.
  revert rows. induction rdr as [|r rdr IH]; intros rows.
  { left. split; [constructor | by eexists]. }
  destruct (read_row_cases r) as [[Ha Hok]|[Hr (e & He & Hraise)]].
  - destruct (Hok rows) as [rows' Hrows'].
    destruct (IH rows')
      as [[Hall [hits Hhits]]
         |(pre & r' & post & e & -> & Hpre & Hr' & He & Hraise & Hrun)].
    + left. split; [by constructor|]. exists hits. cbn. by rewrite Hrows'.
    + right. exists (r :: pre), r', post, e. repeat split; try done.
      * by constructor.
      * cbn. by rewrite Hrows'.
  - right. exists [], r, rdr, e. repeat split; try done.
    cbn. by rewrite Hraise.
Qed.

Lemma read_rows_ok_iff (rdr : list (list string)) (rows : list Hit) :
  (exists hits, read_rows rows rdr = Ok hits) <-> Forall row_accepted rdr.
Proof.
  destruct (read_rows_cases rdr rows)
    as [[Hall Hok]|(pre & r & post & e & -> & Hpre & Hr & He & Hraise & Hrun)].
  - done.
  - split.
    + intros [hits Hhits]. congruence.
    + intros Hall. apply Forall_app in Hall as [_ Hall].
      by apply Forall_cons in Hall as [? _].
Qed.

Lemma read_rows_raises_ValueError (rdr : list (list string)) (rows : list Hit) (e : exn) :
  read_rows rows rdr = Raise e -> is_ValueError e = true.
Proof.
  destruct (read_rows_cases rdr rows)
    as [[_ [hits Hok]]|(pre & r & post & e' & -> & Hpre & Hr & He & Hraise & Hrun)];
    [congruence|].
  intros Hrun'. rewrite Hrun in Hrun'. simplify_eq.
  by eapply parse_error_is_ValueError.
Qed.

(** An exception of the reader leaves [main] before any file is opened
    for writing. *)
Lemma main_reraises (args : Args) (files : gmap string (list (list string)))
    (disk : gmap string table) (e : exn) :
  read_tsv files (infile args) = Raise e ->
  main args files disk = (disk, Raise e).
Proof. intros H. unfold Sensitivity.main. by rewrite H. Qed.

(** C3.  A non-empty, non-comment row with fewer than eight fields makes
    the reader raise a [ValueError]; [main] ends with that error and has
    written no file.  When the rows before it are well formed, the error is
    the column-count error. *)
Theorem short_row_aborts_run (args : Args) (files : gmap string (list (list string)))
    (disk : gmap string table) (rdr : list (list string)) (r : list string) :
  files !! infile args = Some rdr ->
  r ∈ rdr -> r <> [] -> ~ is_comment r -> length r < 8 ->
  (exists e,
      is_ValueError e = true /\
      read_tsv files (infile args) = Raise e /\
      main args files disk = (disk, Raise e)) /\
  (forall pre post,
      rdr = pre ++ r :: post -> Forall row_accepted pre ->
      read_tsv files (infile args) = Raise ValueError_columns /\
      main args files disk = (disk, Raise ValueError_columns)).
Proof.
  intros Hfile Hin Hne Hc Hlen.
  assert (read_tsv files (infile args) = read_rows [] rdr) as Hread
    by (unfold Sensitivity.read_tsv; by rewrite Hfile).
  split.
  - destruct (read_rows_cases rdr [])
      as [[Hall _]|(pre & r' & post & e & -> & Hpre & Hr' & He & Hraise & Hrun)].
    + rewrite Forall_forall in Hall. destruct (short_row_rejected r); auto.
    + exists e. split; [by eapply parse_error_is_ValueError|].
      rewrite <- Hread in Hrun. split; [done | by apply main_reraises].
  - intros pre post -> Hpre.
    assert (read_tsv files (infile args) = Raise ValueError_columns) as Hrun.
    { rewrite Hread. apply read_rows_first_rejected; [done|].
      by apply short_row_raises. }
    split; [done | by apply main_reraises].
Qed.

(** C4, as the code has it.  The parse error of the first offending row
    reaches the caller of [main] unchanged, with no file written.  The
    error is fixed by that row alone: the column-count error for a short
    row, else the text of the field that is not a number. *)
Theorem parse_error_surfaces (args : Args) (files : gmap string (list (list string)))
    (disk : gmap string table) (pre : list (list string)) (r : list string)
    (post : list (list string)) :
  files !! infile args = Some (pre ++ r :: post) ->
  Forall row_accepted pre -> ~ row_accepted r ->
  exists e,
    parse_error_of r e /\
    read_row [] r = Raise e /\
    read_tsv files (infile args) = Raise e /\
    main args files disk = (disk, Raise e).
Proof.
  intros Hfile Hpre Hr.
  destruct (read_row_cases r) as [[? _]|[_ (e & He & Hraise)]]; [done|].
  exists e. split; [done|]. split; [done|].
  assert (read_tsv files (infile args) = Raise e) as Hrun.
  { unfold Sensitivity.read_tsv. rewrite Hfile. by apply read_rows_first_rejected. }
  split; [done | by apply main_reraises].
Qed.

(** C9.  Fields after the eighth are ignored: cutting every row to its
    first eight fields changes nothing.  The reader returns exactly when
    every row is empty, a comment, or has at least eight fields with
    numbers in the numeric columns; otherwise it raises a [ValueError]. *)
Theorem extra_columns_ignored (files : gmap string (list (list string))) (path : string) :
  read_tsv ((fun rdr : list (list string) => take 8 <$> rdr) <$> files) path = read_tsv files path /\
  (forall rdr, files !! path = Some rdr ->
     ((exists hits, read_tsv files path = Ok hits) <-> Forall row_accepted rdr) /\
     (forall e, read_tsv files path = Raise e -> is_ValueError e = true)).
Proof.
  split.
  - unfold Sensitivity.read_tsv. rewrite lookup_fmap.
    destruct (files !! path) as [rdr|]; [|reflexivity].
    cbn. apply read_rows_take.
  - intros rdr Hfile. unfold Sensitivity.read_tsv. rewrite Hfile. split.
    + apply read_rows_ok_iff.
    + apply read_rows_raises_ValueError.
Qed.
End SensitivityReader.

Section SensitivityReaderExamples.
Import Sensitivity Examples.

Lemma short_row_no_comment : ~ is_comment short_row.
Proof. intros (r0 & rest & Heq & Hs). unfold short_row in Heq. by simplify_eq. Qed.

Lemma short_row_not_accepted : ~ row_accepted decimal_float decimal_int short_row.
Proof.
  apply short_row_rejected; [done | apply short_row_no_comment | simpl; lia].
Qed.

Lemma full_row_accepted : row_accepted decimal_float decimal_int full_row.
Proof.
  right; right. split; [simpl; lia|]. split.
  - intros i s Hi Hs. rewrite !elem_of_cons, elem_of_nil in Hi.
    destruct Hi as [->|[->|[->|[->|[->|[]]]]]]; cbn in Hs; simplify_eq; by eexists.
  - intros s Hs. cbn in Hs. simplify_eq. by eexists.
Qed.

(** The file [a.tsv], whose only row lacks a column: the run ends with the
    column-count error and nothing is written. *)
Lemma short_row_aborts_run_witness :
  main decimal_float decimal_int (args_for "a.tsv") tsv_files ∅
  = (∅, Raise ValueError_columns).
Proof.
  refine (proj2 (proj2 (short_row_aborts_run decimal_float decimal_int
                          (args_for "a.tsv") tsv_files ∅ [short_row] short_row
                          _ _ _ _ _) [] [] eq_refl _)).
  - reflexivity.
  - elem_of_literal.
  - discriminate.
  - apply short_row_no_comment.
  - simpl. lia.
  - constructor.
Defined.

(** The file [b.tsv], whose second row lacks a column. *)
Lemma parse_error_surfaces_witness :
  exists e,
    parse_error_of decimal_float decimal_int short_row e /\
    read_row decimal_float decimal_int [] short_row = Raise e /\
    read_tsv decimal_float decimal_int tsv_files "b.tsv" = Raise e /\
    main decimal_float decimal_int (args_for "b.tsv") tsv_files ∅ = (∅, Raise e).
Proof.
  apply (parse_error_surfaces decimal_float decimal_int (args_for "b.tsv") tsv_files ∅
           [full_row] short_row []).
  - reflexivity.
  - constructor; [apply full_row_accepted | constructor].
  - apply short_row_not_accepted.
Defined.

(** C4 as stated fails: the short row raises the same exception as line 1
    of [a.tsv] and as line 2 of [b.tsv], so neither the file nor the line
    can be read off it. *)
Lemma parse_error_names_no_place :
  read_tsv decimal_float decimal_int tsv_files "a.tsv" = Raise ValueError_columns /\
  read_tsv decimal_float decimal_int tsv_files "b.tsv" = Raise ValueError_columns /\
  ~ locates_parse_errors decimal_float decimal_int (read_tsv decimal_float decimal_int).
Proof.
  assert (read_tsv decimal_float decimal_int tsv_files "a.tsv"
          = Raise ValueError_columns) as Ha by reflexivity.
  assert (read_tsv decimal_float decimal_int tsv_files "b.tsv"
          = Raise ValueError_columns) as Hb.
  { unfold read_tsv.
    change (tsv_files !! "b.tsv") with (Some ([full_row] ++ short_row :: [])).
    apply read_rows_first_rejected; [|reflexivity].
    constructor; [apply full_row_accepted | constructor]. }
  split; [done|]. split; [done|].
  intros [place Hplace].
  pose proof (Hplace tsv_files "a.tsv" [] short_row [] _ eq_refl
                (Forall_nil_2 _) short_row_not_accepted Ha) as Hpa.
  assert (Forall (row_accepted decimal_float decimal_int) [full_row]) as Hpre
    by (constructor; [apply full_row_accepted | constructor]).
  pose proof (Hplace tsv_files "b.tsv" [full_row] short_row [] _ eq_refl
                Hpre short_row_not_accepted Hb) as Hpb.
  rewrite Hpa in Hpb. discriminate.
Qed.

Lemma long_row_accepted : row_accepted decimal_float decimal_int long_row.
Proof.
  right; right. split; [simpl; lia|]. split.
  - intros i s Hi Hs. rewrite !elem_of_cons, elem_of_nil in Hi.
    destruct Hi as [->|[->|[->|[->|[->|[]]]]]]; cbn in Hs; simplify_eq; by eexists.
  - intros s Hs. cbn in Hs. simplify_eq. by eexists.
Qed.

(** The file [c.tsv], whose row has ten fields, is read without an error,
    as it is read when the row is cut to eight fields. *)
Lemma extra_columns_ignored_witness :
  (exists hits, read_tsv decimal_float decimal_int tsv_files "c.tsv" = Ok hits) /\
  read_tsv decimal_float decimal_int
    ((fun rdr : list (list string) => take 8 <$> rdr) <$> tsv_files) "c.tsv"
  = read_tsv decimal_float decimal_int tsv_files "c.tsv".
Proof.
  pose proof (extra_columns_ignored decimal_float decimal_int tsv_files "c.tsv")
    as (Hcut & Hread).
  destruct (Hread [long_row] eq_refl) as (Hok & _).
  split; [|exact Hcut].
  apply Hok. constructor; [apply long_row_accepted | constructor].
Defined.
End SensitivityReaderExamples.

(** ** The sensitivity engine *)

Lemma py_and_bool (x y : bool) :
  py_and (Ok (VBool x)) (Ok (VBool y)) = Ok (VBool (x && y)).
Proof. by destruct x. Qed.

Lemma filter_sublist_mono {A} (P Q : A -> Prop)
    `{!forall x, Decision (P x)} `{!forall x, Decision (Q x)} (l1 l2 : list A) :
  l1 `sublist_of` l2 -> (forall x, P x -> Q x) ->
  filter P l1 `sublist_of` filter Q l2.
Proof.
  intros Hsub HPQ. induction Hsub as [|x l1 l2 _ IH|x l1 l2 _ IH].
  - done.
  - rewrite !filter_cons. destruct (decide (P x)) as [HP|HP], (decide (Q x)) as [HQ|HQ].
    + by apply sublist_skip.
    + by destruct HQ; apply HPQ.
    + by apply sublist_cons.
    + done.
  - rewrite filter_cons. destruct (decide (Q x)); [by apply sublist_cons | done].
Qed.

(** The number of distinct keys grows with the list. *)
Lemma unique_mono {A} (f : A -> string) (l1 l2 : list A) :
  l1 ⊆ l2 ->
  size (list_to_set (f <$> l1) : gset string)
  <= size (list_to_set (f <$> l2) : gset string).
Proof.
  intros Hsub. apply subseteq_size. intros q.
  rewrite !elem_of_list_to_set, !list_elem_of_fmap.
  intros (x & -> & Hx). exists x. split; [done|]. by apply Hsub.
Qed.

Section SensitivityKeys.
Import Sensitivity.

Lemma pass_bits_key_inj : Inj (=) (=) pass_bits_key.
Proof.
  intros b1 b2 H. unfold pass_bits_key in H.
  apply (inj (String.app "pass_bits_")) in H. by apply (inj pretty) in H.
Qed.

(** No [pass_bits_] key is one of the fixed keys of an entry. *)
Lemma pass_bits_key_fresh (b : Z) (k : string) :
  k ∈ base_fields ++ ["pass_conservative"] -> pass_bits_key b <> k.
Proof.
  unfold base_fields. cbn [app]. rewrite !elem_of_cons, elem_of_nil.
  intros H E. unfold pass_bits_key in E.
  repeat destruct H as [->|H]; try done; discriminate E.
Qed.

Lemma dict_keys (r : Hit) (k : string) (v : value) :
  dict r !! k = Some v -> k ∈ take 8 base_fields.
Proof.
  intros H. apply elem_of_list_to_map_2 in H.
  rewrite !elem_of_cons, elem_of_nil in H.
  cbn. rewrite !elem_of_cons.
  repeat destruct H as [H|H]; try done; simplify_eq; auto 12.
Qed.

Lemma row_keys_fresh (k : string) :
  k ∈ take 8 base_fields ->
  k <> "pass_evalue" /\ k <> "pass_conservative" /\ forall b, pass_bits_key b <> k.
Proof.
  intros H. cbn in H. rewrite !elem_of_cons, elem_of_nil in H.
  assert (k ∈ base_fields ++ ["pass_conservative"]) as Hin.
  { repeat destruct H as [->|H]; try done; elem_of_literal. }
  split; [|split].
  - repeat destruct H as [->|H]; done.
  - repeat destruct H as [->|H]; done.
  - intros b. by apply pass_bits_key_fresh.
Qed.

(** An entry that holds the items of the row [r] shows them in its first
    eight cells. *)
Lemma row_cells (r : Hit) (d : gmap string value) (rest : list string) :
  dict r ⊆ d ->
  take 8 ((fun k => default (VStr "") (d !! k)) <$> base_fields ++ rest) = hit_cells r.
Proof.
  intros Hsub. cbn.
  assert (forall k v, dict r !! k = Some v -> default (VStr "") (d !! k) = v) as Hget.
  { intros k v Hk. by rewrite (lookup_weaken _ _ _ _ Hk Hsub). }
  unfold hit_cells. repeat f_equal; by apply Hget.
Qed.

Lemma body_cells (rs : list Hit) (entries : list (gmap string value)) (rest : list string) :
  Forall2 (fun r entry => dict r ⊆ entry) rs entries ->
  take 8 <$> ((fun d => (fun k => default (VStr "") (d !! k)) <$> base_fields ++ rest)
              <$> entries)
  = hit_cells <$> rs.
Proof.
  induction 1 as [|r entry rs entries Hsub _ IH]; [done|].
  rewrite !fmap_cons. f_equal; [by apply row_cells | exact IH].
Qed.
End SensitivityKeys.

Section SensitivityEngine.
Import Sensitivity.
Context (rows : list Hit) (bits_list : list Z).
Context (evalue_cutoff cons_pident cons_qcov : R).
Local Abbreviation summary := (summary rows evalue_cutoff cons_pident cons_qcov).
Local Abbreviation detailed_entry :=
  (detailed_entry bits_list evalue_cutoff cons_pident cons_qcov).
Local Abbreviation detailed_rows :=
  (detailed_rows bits_list evalue_cutoff cons_pident cons_qcov).
Local Abbreviation make_summaries :=
  (make_summaries rows bits_list evalue_cutoff cons_pident cons_qcov).

(** The loop over the thresholds never misses the key [pass_evalue]; it
    sets the key of every threshold and leaves the other keys alone. *)
Lemma bits_flags_ok (r : Hit) (bs : list Z) (entry : gmap string value) (pe : value) :
  entry !! "pass_evalue" = Some pe ->
  exists entry',
    bits_flags r entry bs = Ok entry' /\
    (forall k, (forall b, b ∈ bs -> pass_bits_key b <> k) -> entry' !! k = entry !! k) /\
    (forall b, b ∈ bs ->
       entry' !! pass_bits_key b
       = Some (if bool_decide (bits r >= IZR b)%R then pe else VBool false)).
Proof.
  revert entry. induction bs as [|b bs IH]; intros entry Hpe.
  { exists entry. split; [done|]. split; [done|].
    intros b Hb. by apply elem_of_nil in Hb. }
  cbn [bits_flags].
  assert (py_and (Ok (VBool (bool_decide (bits r >= IZR b)%R)))
                 (dict_getitem entry "pass_evalue")
          = Ok (if bool_decide (bits r >= IZR b)%R then pe else VBool false)) as ->.
  { unfold py_and, dict_getitem. rewrite Hpe. by destruct (bool_decide _). }
  cbn [mbind result_bind].
  set (entry1 := <[pass_bits_key b := _]> entry).
  assert (entry1 !! "pass_evalue" = Some pe) as Hpe1.
  { unfold entry1. rewrite lookup_insert_ne; [done|].
    apply pass_bits_key_fresh. elem_of_literal. }
  destruct (IH entry1 Hpe1) as (entry' & Hrun & Hother & Hbits).
  exists entry'. split; [done|]. split.
  - intros k Hk. rewrite Hother by (intros; apply Hk; by apply list_elem_of_further).
    unfold entry1. rewrite lookup_insert_ne; [done|]. apply Hk, list_elem_of_here.
  - intros b' Hb'. destruct (decide (b' ∈ bs)) as [Hin|Hout]; [by apply Hbits|].
    apply elem_of_cons in Hb' as [->|?]; [|done].
    rewrite Hother.
    + unfold entry1. by rewrite lookup_insert_eq.
    + intros b'' Hb'' E. apply pass_bits_key_inj in E. by subst.
Qed.

(** What [detailed_entry] stores: the items of the row and the flags. *)
Lemma detailed_entry_ok (r : Hit) :
  exists entry,
    detailed_entry r = Ok entry /\
    dict r ⊆ entry /\
    entry !! "pass_evalue" = Some (VBool (bool_decide (evalue r <= evalue_cutoff)%R)) /\
    (forall b, b ∈ bits_list ->
       entry !! pass_bits_key b
       = Some (VBool (bool_decide (bits r >= IZR b)%R
                      && bool_decide (evalue r <= evalue_cutoff)%R))) /\
    entry !! "pass_conservative"
    = Some (VBool (bool_decide (evalue r <= evalue_cutoff)%R
                   && bool_decide (pident r >= cons_pident)%R
                   && bool_decide (qcov r >= cons_qcov)%R)).
Proof.
  unfold Sensitivity.detailed_entry.
  set (pe := bool_decide (evalue r <= evalue_cutoff)%R).
  set (entry1 := <["pass_evalue" := VBool pe]> (dict r)).
  assert (entry1 !! "pass_evalue" = Some (VBool pe)) as Hpe
    by apply lookup_insert_eq.
  destruct (bits_flags_ok r bits_list entry1 _ Hpe) as (entry2 & -> & Hother & Hbits).
  assert (entry2 !! "pass_evalue" = Some (VBool pe)) as Hpe2.
  { rewrite Hother; [done|]. intros b _. apply pass_bits_key_fresh. elem_of_literal. }
  cbn [mbind result_bind]. rewrite py_and_bool.
  assert (dict_getitem entry2 "pass_evalue" = Ok (VBool pe)) as ->
    by (unfold dict_getitem; by rewrite Hpe2).
  rewrite py_and_bool. cbn [mbind result_bind].
  eexists. split; [reflexivity|]. rewrite andb_assoc. repeat split.
  - apply map_subseteq_spec. intros k v Hk.
    destruct (row_keys_fresh k) as (He & Hc & Hb); [by eapply dict_keys|].
    rewrite lookup_insert_ne by done.
    rewrite Hother by (intros b _; apply Hb).
    unfold entry1. by rewrite lookup_insert_ne.
  - by rewrite lookup_insert_ne.
  - intros b Hb. rewrite lookup_insert_ne.
    + rewrite (Hbits b Hb). by destruct (bool_decide (bits r >= IZR b)%R).
    + apply not_eq_sym, pass_bits_key_fresh. elem_of_literal.
  - by rewrite lookup_insert_eq.
Qed.

Lemma detailed_rows_ok (rs : list Hit) (detailed : list (gmap string value)) :
  exists entries,
    detailed_rows detailed rs = Ok (detailed ++ entries) /\
    Forall2 (fun r entry => detailed_entry r = Ok entry) rs entries.
Proof.
  revert detailed. induction rs as [|r rs IH]; intros detailed.
  { exists []. split; [by rewrite app_nil_r | constructor]. }
  destruct (detailed_entry_ok r) as (entry & Hentry & _).
  destruct (IH (detailed ++ [entry])) as (entries & Hrun & Hall).
  exists (entry :: entries). split.
  - cbn [Sensitivity.detailed_rows]. rewrite Hentry. cbn [mbind result_bind].
    by rewrite Hrun, <- app_assoc.
  - by constructor.
Qed.

(** [make_summaries] returns: one summary per declared threshold and one
    entry per row, both in order. *)
Lemma make_summaries_ok :
  exists detailed,
    make_summaries = Ok (summary <$> bits_list, detailed) /\
    Forall2 (fun r entry => detailed_entry r = Ok entry) rows detailed.
Proof.
  destruct (detailed_rows_ok rows []) as (detailed & Hrun & Hall).
  exists detailed. split; [|done].
  unfold Sensitivity.make_summaries. rewrite Hrun. cbn [mbind result_bind].
  by rewrite loop_append.
Qed.

Lemma summary_mono (b1 b2 : Z) :
  (b1 < b2)%Z ->
  n_hits_total (summary b2) <= n_hits_total (summary b1) /\
  n_unique_queries_total (summary b2) <= n_unique_queries_total (summary b1) /\
  n_hits_conservative (summary b2) <= n_hits_conservative (summary b1) /\
  n_unique_queries_conservative (summary b2)
  <= n_unique_queries_conservative (summary b1).
Proof.
  intros Hlt. apply IZR_lt in Hlt. unfold Sensitivity.summary. cbn.
  set (pass b := fun r => (evalue r <= evalue_cutoff /\ bits r >= IZR b)%R).
  set (conservative := fun r => (pident r >= cons_pident /\ qcov r >= cons_qcov)%R).
  assert (filter (pass b2) rows `sublist_of` filter (pass b1) rows) as Hfiltered.
  { apply filter_sublist_mono; [done|]. unfold pass. intros r [? ?]. split; lra. }
  assert (filter conservative (filter (pass b2) rows)
          `sublist_of` filter conservative (filter (pass b1) rows)) as Hcons.
  { by apply filter_sublist_mono. }
  repeat split.
  - by apply sublist_length.
  - by apply unique_mono, sublist_subseteq.
  - by apply sublist_length.
  - by apply unique_mono, sublist_subseteq.
Qed.

(** The written detailed table: the header, then one row of cells per
    entry. *)
Lemma write_detailed_lookup (detailed : list (gmap string value)) (out_path : string)
    (disk : gmap string table) :
  exists fieldnames,
    fieldnames = base_fields ++ (pass_bits_key <$> bits_list) ++ ["pass_conservative"] /\
    write_detailed detailed bits_list out_path disk !! out_path
    = Some ((VStr <$> fieldnames)
            :: ((fun d => (fun k => default (VStr "") (d !! k)) <$> fieldnames)
                <$> detailed)).
Proof.
  eexists. split; [reflexivity|].
  unfold write_detailed. rewrite lookup_insert_eq. f_equal.
  by rewrite loop_append.
Qed.

(** C6.  The summaries are those of the declared thresholds, in order, and
    of two of them the one with the larger threshold counts no more hits,
    no more distinct queries, no more conservative hits and no more
    distinct conservative queries. *)
Theorem stricter_bitscore_fewer_hits (summaries : list Summary)
    (detailed : list (gmap string value)) (s1 s2 : Summary) :
  make_summaries = Ok (summaries, detailed) ->
  s1 ∈ summaries -> s2 ∈ summaries ->
  (threshold_bits s1 < threshold_bits s2)%Z ->
  threshold_bits <$> summaries = bits_list /\
  n_hits_total s2 <= n_hits_total s1 /\
  n_unique_queries_total s2 <= n_unique_queries_total s1 /\
  n_hits_conservative s2 <= n_hits_conservative s1 /\
  n_unique_queries_conservative s2 <= n_unique_queries_conservative s1.
Proof.
  intros Hrun Hs1 Hs2 Hlt.
  destruct make_summaries_ok as (detailed' & Hrun' & _).
  rewrite Hrun' in Hrun. simplify_eq.
  apply list_elem_of_fmap in Hs1 as (b1 & -> & _).
  apply list_elem_of_fmap in Hs2 as (b2 & -> & _).
  split; [|by apply summary_mono].
  rewrite <- list_fmap_compose. by rewrite <- (list_fmap_id bits_list) at 2.
Qed.

(** C7.  [make_summaries] returns, and the entry of each row has
    [pass_evalue] true iff the e-value is at most the cutoff, each
    [pass_bits_B] true iff the bitscore is at least [B] and the e-value
    passes, and [pass_conservative] true iff the e-value passes and both
    identity and query coverage reach their cutoffs. *)
Theorem detailed_flags :
  exists summaries detailed,
    make_summaries = Ok (summaries, detailed) /\
    forall i r, rows !! i = Some r ->
      exists entry,
        detailed !! i = Some entry /\
        flag entry "pass_evalue" (evalue r <= evalue_cutoff)%R /\
        (forall B, B ∈ bits_list ->
           flag entry (pass_bits_key B)
             (bits r >= IZR B /\ evalue r <= evalue_cutoff)%R) /\
        flag entry "pass_conservative"
          (evalue r <= evalue_cutoff /\ pident r >= cons_pident /\ qcov r >= cons_qcov)%R.
Proof.
  destruct make_summaries_ok as (detailed & Hrun & Hall).
  exists (summary <$> bits_list), detailed. split; [done|].
  intros i r Hi.
  destruct (Forall2_lookup_l _ _ _ _ _ Hall Hi) as (entry & Hentry & Hmade).
  destruct (detailed_entry_ok r) as (entry' & Hmade' & _ & He & Hb & Hc).
  rewrite Hmade in Hmade'. simplify_eq.
  exists entry'. split; [done|]. unfold flag. repeat split.
  - eexists. split; [exact He|]. apply bool_decide_eq_true.
  - intros B HB. eexists. split; [exact (Hb B HB)|].
    rewrite andb_true_iff, !bool_decide_eq_true. done.
  - eexists. split; [exact Hc|].
    rewrite !andb_true_iff, !bool_decide_eq_true. tauto.
Qed.

(** C8.  The detailed list has one entry per row, in the order of the
    rows, each holding the items of its row; the written table has the
    header and then one line per row, in the same order, whose first eight
    cells are the items of that row. *)
Theorem detailed_one_row_per_hit (out_path : string) (disk : gmap string table) :
  exists summaries detailed header body,
    make_summaries = Ok (summaries, detailed) /\
    length detailed = length rows /\
    (forall i r, rows !! i = Some r ->
       exists entry, detailed !! i = Some entry /\ dict r ⊆ entry) /\
    write_detailed detailed bits_list out_path disk !! out_path = Some (header :: body) /\
    length body = length rows /\
    take 8 <$> body = hit_cells <$> rows.
Proof.
  destruct make_summaries_ok as (detailed & Hrun & Hall).
  destruct (write_detailed_lookup detailed out_path disk) as (fieldnames & Hnames & Hfile).
  exists (summary <$> bits_list), detailed. do 2 eexists.
  split; [done|]. split; [by erewrite <- Forall2_length|].
  split; [|split; [exact Hfile|]].
  - intros i r Hi.
    destruct (Forall2_lookup_l _ _ _ _ _ Hall Hi) as (entry & Hentry & Hmade).
    destruct (detailed_entry_ok r) as (entry' & Hmade' & Hsub & _).
    rewrite Hmade in Hmade'. simplify_eq. eauto.
  - split; [rewrite length_fmap; by erewrite <- Forall2_length|].
    subst fieldnames. apply body_cells.
    eapply Forall2_impl; [exact Hall|]. intros r entry Hmade.
    destruct (detailed_entry_ok r) as (entry' & Hmade' & Hsub & _).
    rewrite Hmade in Hmade'. by simplify_eq.
Qed.
End SensitivityEngine.

Section SensitivityMain.
Import Sensitivity.
Context (py_float : string -> option R) (py_int : string -> option Z).

(** A run whose input is read without an error ends normally, with both
    tables written and every other file as it was. *)
Lemma main_writes_tables (args : Args) (files : gmap string (list (list string)))
    (disk : gmap string table) (rows : list Hit) :
  read_tsv py_float py_int files (infile args) = Ok rows ->
  exists disk',
    main py_float py_int args files disk = (disk', Ok ()) /\
    is_Some (disk' !! (rstrip_char "/" (out_dir args) +:+ "/Table_Sx_sensitivity.csv")) /\
    is_Some (disk' !! (rstrip_char "/" (out_dir args) +:+ "/Table_Sx_detailed.csv")) /\
    forall path,
      path <> rstrip_char "/" (out_dir args) +:+ "/Table_Sx_sensitivity.csv" ->
      path <> rstrip_char "/" (out_dir args) +:+ "/Table_Sx_detailed.csv" ->
      disk' !! path = disk !! path.
Proof.
  intros Hread. unfold main. rewrite Hread.
  destruct (make_summaries_ok rows (args_bits args) (args_evalue args)
              (args_cons_pident args) (args_cons_qcov args)) as (detailed & -> & _).
  eexists. split; [reflexivity|]. unfold write_detailed, write_summaries.
  split; [|split].
  - rewrite lookup_insert_ne.
    + rewrite lookup_insert_eq. by eexists.
    + intros E. apply (inj (String.app _)) in E. discriminate E.
  - rewrite lookup_insert_eq. by eexists.
  - intros path Hs Hd. by rewrite !lookup_insert_ne.
Qed.
End SensitivityMain.

Lemma flag_true (entry : gmap string value) (k : string) (P : Prop) :
  Sensitivity.flag entry k P -> P -> entry !! k = Some (VBool true).
Proof. intros (b & Hk & Hb) HP. apply Hb in HP. by subst. Qed.

Lemma flag_false (entry : gmap string value) (k : string) (P : Prop) :
  Sensitivity.flag entry k P -> ~ P -> entry !! k = Some (VBool false).
Proof. intros (b & Hk & Hb) HP. destruct b; [by destruct HP; apply Hb | done]. Qed.

Section SensitivityEngineExamples.
Import Sensitivity Examples.

(** The row [q1 t1 1e-6 40 35 100 60 60] is read as [full_hit]. *)
Lemma full_row_read :
  read_rows decimal_float decimal_int [] [full_row] = Ok [full_hit].
Proof.
  cbn. unfold full_hit. do 2 f_equal. f_equal; decimal_value.
Qed.

(** Two hits, thresholds 20 and 35. *)
Lemma stricter_bitscore_fewer_hits_witness :
  n_hits_total (summary [full_hit; weak_hit] DEFAULT_EVALUE 30 50 35)
  <= n_hits_total (summary [full_hit; weak_hit] DEFAULT_EVALUE 30 50 20).
Proof.
  destruct (make_summaries_ok [full_hit; weak_hit] DEFAULT_BITS DEFAULT_EVALUE 30 50)
    as (detailed & Hrun & _).
  refine (proj1 (proj2 (stricter_bitscore_fewer_hits
                          [full_hit; weak_hit] DEFAULT_BITS DEFAULT_EVALUE 30 50
                          _ detailed
                          (summary [full_hit; weak_hit] DEFAULT_EVALUE 30 50 20)
                          (summary [full_hit; weak_hit] DEFAULT_EVALUE 30 50 35)
                          Hrun _ _ _))).
  - unfold DEFAULT_BITS. rewrite !fmap_cons. elem_of_literal.
  - unfold DEFAULT_BITS. rewrite !fmap_cons. elem_of_literal.
  - cbn. lia.
Defined.

(** The row [q1 t1 1e-6 40 35 100 60 60] with thresholds 20, 35, 50,
    e-value cutoff 1e-5 and conservative cutoffs 30 and 50. *)
Lemma detailed_flags_witness :
  exists summaries detailed entry,
    make_summaries [full_hit] DEFAULT_BITS DEFAULT_EVALUE 30 50 = Ok (summaries, detailed) /\
    detailed !! 0 = Some entry /\
    entry !! "pass_evalue" = Some (VBool true) /\
    entry !! "pass_bits_20" = Some (VBool true) /\
    entry !! "pass_bits_35" = Some (VBool true) /\
    entry !! "pass_bits_50" = Some (VBool false) /\
    entry !! "pass_conservative" = Some (VBool true).
Proof.
  destruct (detailed_flags [full_hit] DEFAULT_BITS DEFAULT_EVALUE 30 50)
    as (summaries & detailed & Hrun & Hflags).
  destruct (Hflags 0 full_hit eq_refl) as (entry & Hentry & He & Hb & Hc).
  exists summaries, detailed, entry.
  split; [exact Hrun|]. split; [exact Hentry|].
  unfold DEFAULT_EVALUE in *. cbn [evalue bits pident qcov full_hit] in *.
  split; [apply (flag_true _ _ _ He); lra|].
  split; [apply (flag_true _ _ _ (Hb 20%Z ltac:(elem_of_literal))); simpl; lra|].
  split; [apply (flag_true _ _ _ (Hb 35%Z ltac:(elem_of_literal))); simpl; lra|].
  split; [apply (flag_false _ _ _ (Hb 50%Z ltac:(elem_of_literal))); simpl; lra|].
  apply (flag_true _ _ _ Hc); lra.
Defined.

(** One hit: one entry that holds its items, and one line below the
    header. *)
Lemma detailed_one_row_per_hit_witness :
  exists summaries detailed header line entry,
    make_summaries [full_hit] DEFAULT_BITS DEFAULT_EVALUE 30 50 = Ok (summaries, detailed) /\
    detailed !! 0 = Some entry /\ dict full_hit ⊆ entry /\
    write_detailed detailed DEFAULT_BITS "out/Table_Sx_detailed.csv" ∅
      !! "out/Table_Sx_detailed.csv" = Some [header; line] /\
    take 8 line = hit_cells full_hit.
Proof.
  destruct (detailed_one_row_per_hit [full_hit] DEFAULT_BITS DEFAULT_EVALUE 30 50
              "out/Table_Sx_detailed.csv" ∅)
    as (summaries & detailed & header & body & Hrun & _ & Hentries & Hfile & Hlen & Hcells).
  destruct (Hentries 0 full_hit eq_refl) as (entry & Hentry & Hsub).
  destruct body as [|line [|? ?]]; [done | | done].
  exists summaries, detailed, header, line, entry.
  repeat split; try done. by injection Hcells.
Defined.
End SensitivityEngineExamples.

(** * Further properties *)

(** ** More on the coverage metrics *)

Section CoverageMetricsMore.
Import Coverage.


Lemma sum_constant (d : R) (l : list R) :
  Forall (eq d) l -> sum l = (INR (length l) * d)%R.
Proof.
  induction 1 as [|x l <- _ IH].
  - rewrite sum_nil. simpl. lra.
  - rewrite sum_cons, IH. rewrite length_cons, S_INR. lra.
Qed.




Lemma pstdev_nonneg (l : list R) : (0 <= pstdev l)%R.
Proof. unfold pstdev. apply sqrt_pos. Qed.

Lemma pstdev_singleton (d : R) : pstdev [d] = 0%R.
Proof.
  unfold pstdev. cbn [length map]. rewrite !sum_cons, !sum_nil. simpl INR.
  replace ((d - (d + 0) / 1) * (d - (d + 0) / 1) + 0)%R with 0%R by (field_simplify; lra).
  unfold Rdiv. rewrite Rmult_0_l. apply sqrt_0.
Qed.

(** The evenness in closed form. *)
Lemma evenness_clamped (d : R) (l : list R) :
  mean_depth (compute_metrics (d :: l)) = (sum (d :: l) / INR (length (d :: l)))%R /\
  evenness (compute_metrics (d :: l))
  = if decide (mean_depth (compute_metrics (d :: l)) <= 0)%R then 0%R
    else Rmax 0 (1 - pstdev (d :: l) / mean_depth (compute_metrics (d :: l))).
Proof.
  split; [reflexivity|].
  unfold compute_metrics. cbn [evenness mean_depth].
  set (mean := (sum (d :: l) / INR (length (d :: l)))%R).
  assert ((if (1 <? length (d :: l))%nat then pstdev (d :: l) else 0%R)
          = pstdev (d :: l)) as ->.
  { destruct l as [|? ?]; [by rewrite pstdev_singleton | done]. }
  pose proof (pstdev_nonneg (d :: l)) as Hsd.
  destruct (decide (mean <= 0)%R) as [|Hmean]; [done|].
  assert (0 <= pstdev (d :: l) / mean)%R.
  { apply Rmult_le_pos; [done|]. left. apply Rinv_0_lt_compat. lra. }
  unfold Rmax. repeat case_decide; destruct (Rle_dec _ _); lra.
Qed.

Lemma filter_all {A} (P : A -> Prop) `{!forall x, Decision (P x)} (l : list A) :
  length (filter P l) = length l <-> Forall P l.
Proof.
  induction l as [|x l IH]; [by split; [constructor|]|].
  rewrite filter_cons. pose proof (length_filter P l) as Hle.
  destruct (decide (P x)) as [HP|HP]; cbn [length].
  - rewrite Forall_cons. split.
    + intros Heq. injection Heq as Heq. split; [done | by apply IH].
    + intros [_ Hall]. f_equal. by apply IH.
  - split; [lia|]. intros Hall. by apply Forall_cons in Hall as [? _].
Qed.

Lemma filter_none {A} (P : A -> Prop) `{!forall x, Decision (P x)} (l : list A) :
  length (filter P l) = 0 <-> Forall (fun x => ~ P x) l.
Proof.
  induction l as [|x l IH]; [by split; [constructor|]|].
  rewrite filter_cons, Forall_cons.
  destruct (decide (P x)) as [HP|HP]; cbn [length].
  - split; [lia | by intros [? _]].
  - rewrite IH. tauto.
Qed.





Lemma pstdev_constant (d : R) (l : list R) : Forall (eq d) l -> pstdev l = 0%R.
Proof.
  intros Hall. unfold pstdev. destruct l as [|x l].
  { simpl. rewrite sum_nil. unfold Rdiv. rewrite Rmult_0_l. apply sqrt_0. }
  rewrite (sum_constant d (x :: l) Hall).
  set (n := INR (length (x :: l))).
  assert (0 < n)%R by apply INR_length_pos.
  replace (n * d / n)%R with d by (field; lra).
  rewrite (sum_constant 0%R).
  - rewrite Rmult_0_r. unfold Rdiv. rewrite Rmult_0_l. apply sqrt_0.
  - apply Forall_forall. intros y Hy.
    apply list_elem_of_In, in_map_iff in Hy as (z & <- & Hz).
    rewrite Forall_forall in Hall. rewrite <- (Hall z) by (by apply list_elem_of_In). ring.
Qed.

Lemma metrics_eq (m : metrics) (b mu e : R) :
  breadth m = b -> mean_depth m = mu -> evenness m = e ->
  m = {| breadth := b; mean_depth := mu; evenness := e |}.
Proof. destruct m. cbn. by intros -> -> ->. Qed.

Lemma uniform_metrics (depths : list R) (d : R) :
  depths <> [] -> Forall (eq d) depths -> (0 < d)%R ->
  compute_metrics depths = {| breadth := 100; mean_depth := d; evenness := 1 |}.
Proof.
  intros Hne Hall Hd. destruct depths as [|x l]; [done|].
  pose proof (evenness_clamped x l) as [Hmean Hev].
  assert (0 < INR (length (x :: l)))%R as Hn by apply INR_length_pos.
  assert (mean_depth (compute_metrics (x :: l)) = d) as Hmean'.
  { rewrite Hmean, (sum_constant d (x :: l) Hall). field. lra. }
  rewrite Hmean', (pstdev_constant d) in Hev by done.
  assert (breadth (compute_metrics (x :: l)) = 100%R) as Hb.
  { unfold compute_metrics. cbn [breadth].
    assert (length (filter (fun d => d > 0)%R (x :: l)) = length (x :: l)) as ->.
    { apply filter_all. eapply Forall_impl; [exact Hall|]. intros y <-. lra. }
    field. lra. }
  apply metrics_eq; [done | done |].
  rewrite Hev. destruct (decide (d <= 0)%R); [lra|].
  unfold Rdiv. rewrite Rmult_0_l, Rminus_0_r. apply Rmax_right. lra.
Qed.

(** X1.  The evenness of a non-empty sequence is 0 when the mean is at most
    0, and otherwise [1 - pstdev/mean] cut at 0 from below; the cut at 1
    never applies, and a single depth follows the same formula. *)
Theorem evenness_formula (d : R) (l : list R) :
  mean_depth (compute_metrics (d :: l)) = (sum (d :: l) / INR (length (d :: l)))%R /\
  evenness (compute_metrics (d :: l))
  = if decide (mean_depth (compute_metrics (d :: l)) <= 0)%R then 0%R
    else Rmax 0 (1 - pstdev (d :: l) / mean_depth (compute_metrics (d :: l))).
Proof. exact (evenness_clamped d l). Qed.



(** X4.  The breadth of a non-empty sequence is 100 exactly when every depth
    is positive, and 0 exactly when none is. *)
Theorem breadth_extremes (d : R) (l : list R) :
  (breadth (compute_metrics (d :: l)) = 100%R <-> Forall (fun x => x > 0)%R (d :: l)) /\
  (breadth (compute_metrics (d :: l)) = 0%R <-> Forall (fun x => ~ (x > 0))%R (d :: l)).
Proof.
  pose proof (filter_all (fun x => x > 0)%R (d :: l)) as Hall.
  pose proof (filter_none (fun x => x > 0)%R (d :: l)) as Hnone.
  unfold compute_metrics. cbn [breadth].
  revert Hall Hnone.
  generalize (length (filter (fun x => x > 0)%R (d :: l))). intros c Hall Hnone.
  assert (0 < INR (length (d :: l)))%R as Hn by apply INR_length_pos.
  rewrite <- Hall, <- Hnone. split; split.
  - intros H. apply INR_eq.
    apply (Rmult_eq_reg_r (/ INR (length (d :: l)))); [|apply Rinv_neq_0_compat; lra].
    rewrite Rinv_r by lra. unfold Rdiv in H.
    set (q := (INR c * / INR (length (d :: l)))%R) in *. lra.
  - intros ->. field. by apply Rgt_not_eq.
  - intros H. apply INR_eq.
    apply (Rmult_eq_reg_r (/ INR (length (d :: l)))); [|apply Rinv_neq_0_compat; lra].
    unfold Rdiv in H. simpl (INR 0).
    set (q := (INR c * / INR (length (d :: l)))%R) in *. lra.
  - intros ->. simpl (INR 0). field. by apply Rgt_not_eq.
Qed.


End CoverageMetricsMore.

(** ** The coverage report *)

Section CoverageReport.
Import Coverage CoverageMain.

Lemma endswith_app (pre p : string) : endswith (pre +:+ p) p = true.
Proof.
  induction pre as [|c pre IH].
  - change (EmptyString +:+ p) with p. destruct p; cbn [endswith]; by rewrite String.eqb_refl.
  - change (String c pre +:+ p) with (String c (pre +:+ p)).
    cbn [endswith]. rewrite IH. apply orb_true_r.
Qed.

Lemma endswith_inv (s p : string) :
  endswith s p = true -> exists pre, s = pre +:+ p.
Proof.
  induction s as [|c s IH]; cbn [endswith].
  - rewrite orb_false_r. intros H%String.eqb_eq. by exists EmptyString.
  - intros [H%String.eqb_eq|H]%orb_true_iff.
    + by exists EmptyString.
    + destruct (IH H) as [pre ->]. by exists (String c pre).
Qed.

Lemma prefix_length (a b : string) :
  String.prefix a b = true -> String.length a <= String.length b.
Proof.
  revert b. induction a as [|c a IH]; intros b; [simpl; lia|].
  destruct b as [|d b]; [done|]. simpl. destruct (ascii_dec c d); [|done].
  intros H%IH. lia.
Qed.

Lemma prefix_refl (a : string) : String.prefix a a = true.
Proof. induction a as [|c a IH]; simpl; [done|]. by destruct (ascii_dec c c). Qed.


Lemma before_last_length (sep s p : string) :
  before_last sep s = Some p -> String.length sep <= String.length s.
Proof.
  revert p. induction s as [|c s IH]; intros p; simpl; [done|].
  destruct (before_last sep s) as [q|] eqn:Hq.
  - intros _. specialize (IH q eq_refl). lia.
  - destruct sep as [|d sep]; [simpl; lia|].
    simpl. destruct (ascii_dec d c); [|done].
    destruct (String.prefix sep s) eqn:Hp; [|done].
    intros _. apply prefix_length in Hp. lia.
Qed.

(** The last occurrence of a separator a string ends with is that end. *)
Lemma before_last_suffix (sep pre : string) :
  sep <> EmptyString -> before_last sep (pre +:+ sep) = Some pre.
Proof.
  intros Hsep. induction pre as [|c pre IH].
  - destruct sep as [|d sep]; [done|].
    change (EmptyString +:+ String d sep) with (String d sep).
    cbn [before_last].
    destruct (before_last (String d sep) sep) as [q|] eqn:Hq.
    + apply before_last_length in Hq. simpl in Hq. lia.
    + by rewrite prefix_refl.
  - change (String c pre +:+ sep) with (String c (pre +:+ sep)).
    cbn [before_last]. by rewrite IH.
Qed.

(** X7.  The target of a depth file is its name without the suffix. *)
Theorem target_of_depth_file (fn : string) :
  endswith fn ".depth" = true -> target_of fn +:+ ".depth" = fn.
Proof.
  intros [pre ->]%endswith_inv. unfold target_of.
  by rewrite before_last_suffix.
Qed.

(** X8.  The pass flag can only be lost by raising a cutoff: a target that
    passes passes under any lower cutoffs, with the same metrics. *)
Theorem pass_monotone_in_cutoffs (py_float : string -> option R)
    (b1 b2 e1 e2 : R) (fh : list string) (m : metrics) :
  (b1 <= b2)%R -> (e1 <= e2)%R ->
  target_row py_float b2 e2 fh = Ok (m, true) ->
  target_row py_float b1 e1 fh = Ok (m, true).
Proof.
  intros Hb He. unfold target_row. rewrite read_depth_file_spec. cbn.
  intros [= <- [Hev Hbr]%andb_true_iff]. do 2 f_equal.
  apply bool_decide_eq_true in Hev, Hbr.
  apply andb_true_iff. rewrite !bool_decide_eq_true. lra.
Qed.
End CoverageReport.

Section CoverageReportMain.
Import Coverage CoverageMain.
Context (py_float : string -> option R) (fmt3 : R -> string).
Local Abbreviation write_rows := (write_rows py_float fmt3).
Local Abbreviation row_for := (row_for py_float fmt3).
Local Abbreviation main := (main py_float fmt3).

Lemma target_row_returns (bc ec : R) (fh : list string) :
  exists m passed, target_row py_float bc ec fh = Ok (m, passed).
Proof. unfold target_row. rewrite read_depth_file_spec. cbn. eauto. Qed.

Lemma write_rows_ok (args : Args) (files : gmap string (list string))
    (fns : list string) (w : list (list value)) :
  Forall (fun fn => is_Some (files !! join (in_dir args) fn)) fns ->
  exists body,
    write_rows args files w fns = (w ++ body, Ok ()) /\
    Forall2 (row_for args files) fns body.
Proof.
  intros Hall. revert w. induction Hall as [|fn fns [fh Hfh] _ IH]; intros w.
  { exists []. split; [by rewrite app_nil_r | constructor]. }
  destruct (target_row_returns (breadth_cutoff args) (evenness_cutoff args) fh)
    as (m & passed & Hrow).
  destruct (IH (w ++ [report_cells fmt3 (target_of fn) m passed])) as (body & Hrun & Hbody).
  exists (report_cells fmt3 (target_of fn) m passed :: body). split.
  - cbn [CoverageMain.write_rows]. rewrite Hfh, Hrow, Hrun. by rewrite <- app_assoc.
  - constructor; [by exists fh, m, passed | done].
Qed.

Lemma write_rows_unreadable (args : Args) (files : gmap string (list string))
    (pre : list string) (fn : string) (post : list string) (w : list (list value)) :
  Forall (fun fn => is_Some (files !! join (in_dir args) fn)) pre ->
  files !! join (in_dir args) fn = None ->
  exists body,
    write_rows args files w (pre ++ fn :: post)
    = (w ++ body, Raise (FileNotFoundError (join (in_dir args) fn))) /\
    Forall2 (row_for args files) pre body.
Proof.
  intros Hpre Hfn. revert w. induction Hpre as [|f pre [fh Hfh] _ IH]; intros w.
  { exists []. split; [|constructor].
    cbn [app CoverageMain.write_rows]. by rewrite Hfn, app_nil_r. }
  destruct (target_row_returns (breadth_cutoff args) (evenness_cutoff args) fh)
    as (m & passed & Hrow).
  destruct (IH (w ++ [report_cells fmt3 (target_of f) m passed])) as (body & Hrun & Hbody).
  exists (report_cells fmt3 (target_of f) m passed :: body). split.
  - cbn [app CoverageMain.write_rows]. rewrite Hfh, Hrow, Hrun. by rewrite <- app_assoc.
  - constructor; [by exists fh, m, passed | done].
Qed.

Lemma merge_sort_names (l1 l2 : list string) :
  l1 ≡ₚ l2 -> merge_sort String.le l1 = merge_sort String.le l2.
Proof.
  intros Hperm. apply (Sorted_unique String.le).
  - apply Sorted_merge_sort, _.
  - apply Sorted_merge_sort, _.
  - by rewrite !merge_sort_Permutation.
Qed.

(** X9.  The report of a directory whose depth files can all be read: the
    run ends normally and the output holds the header and then one row
    per name ending in [.depth], in ascending order of the names; other
    names are ignored and no other file is written. *)
Theorem coverage_report_rows (args : Args) (dirs : gmap string (list string))
    (files : gmap string (list string)) (disk : gmap string (list (list value)))
    (listing : list string) :
  dirs !! in_dir args = Some listing ->
  (forall fn, fn ∈ listing -> endswith fn ".depth" = true ->
     is_Some (files !! join (in_dir args) fn)) ->
  exists names body,
    main args dirs files disk = (<[out args := header :: body]> disk, Ok ()) /\
    names ≡ₚ filter (fun f => endswith f ".depth" = true) listing /\
    Sorted String.le names /\
    Forall2 (row_for args files) names body.
Proof.
  intros Hdir Hread. unfold CoverageMain.main. rewrite Hdir.
  set (names := merge_sort String.le _).
  assert (names ≡ₚ filter (fun f => endswith f ".depth" = true) listing) as Hperm
    by apply merge_sort_Permutation.
  destruct (write_rows_ok args files names [header]) as (body & Hrun & Hbody).
  { apply Forall_forall. intros fn Hfn. rewrite Hperm in Hfn.
    apply list_elem_of_filter in Hfn as [? ?]. by apply Hread. }
  exists names, body. rewrite Hrun. split; [done|]. split; [done|].
  split; [apply Sorted_merge_sort, _ | done].
Qed.

(** X10.  A directory without a name ending in [.depth], an empty one
    included, gives a report with the header only, and the run ends
    normally. *)
Theorem coverage_report_header_only (args : Args) (dirs : gmap string (list string))
    (files : gmap string (list string)) (disk : gmap string (list (list value)))
    (listing : list string) :
  dirs !! in_dir args = Some listing ->
  Forall (fun f => endswith f ".depth" = false) listing ->
  main args dirs files disk = (<[out args := [header]]> disk, Ok ()).
Proof.
  intros Hdir Hnone. unfold CoverageMain.main. rewrite Hdir.
  assert (filter (fun f => endswith f ".depth" = true) listing = []) as ->.
  { clear Hdir. induction Hnone as [|f l Hf _ IH]; [done|].
    rewrite filter_cons, IH. destruct (decide _); congruence. }
  reflexivity.
Qed.

(** X11.  The output file is written before the depth files are read: when
    a depth file cannot be read the run ends with that error, and the
    output is left with the header and the rows of the files before it. *)
Theorem coverage_report_partial (args : Args) (dirs : gmap string (list string))
    (files : gmap string (list string)) (disk : gmap string (list (list value)))
    (listing pre : list string) (fn : string) (post : list string) :
  dirs !! in_dir args = Some listing ->
  merge_sort String.le (filter (fun f => endswith f ".depth" = true) listing)
  = pre ++ fn :: post ->
  Forall (fun f => is_Some (files !! join (in_dir args) f)) pre ->
  files !! join (in_dir args) fn = None ->
  exists body,
    main args dirs files disk
    = (<[out args := header :: body]> disk,
       Raise (FileNotFoundError (join (in_dir args) fn))) /\
    Forall2 (row_for args files) pre body.
Proof.
  intros Hdir Hnames Hpre Hfn. unfold CoverageMain.main. rewrite Hdir, Hnames.
  destruct (write_rows_unreadable args files pre fn post [header] Hpre Hfn)
    as (body & Hrun & Hbody).
  exists body. by rewrite Hrun.
Qed.

(** X12.  The report does not depend on the order in which the directory is
    listed. *)
Theorem coverage_report_listing_order (args : Args) (dirs : gmap string (list string))
    (files : gmap string (list string)) (disk : gmap string (list (list value)))
    (listing listing' : list string) :
  dirs !! in_dir args = Some listing -> listing ≡ₚ listing' ->
  main args (<[in_dir args := listing']> dirs) files disk = main args dirs files disk.
Proof.
  intros Hdir Hperm. unfold CoverageMain.main. rewrite lookup_insert_eq, Hdir.
  rewrite (merge_sort_names
             (filter (fun f => endswith f ".depth" = true) listing')
             (filter (fun f => endswith f ".depth" = true) listing)); [done|].
  by rewrite Hperm.
Qed.
End CoverageReportMain.

(** ** More on the sensitivity reader *)

Section SensitivityReaderMore.
Import Sensitivity SensitivityMore.
Context (py_float : string -> option R) (py_int : string -> option Z).
Local Abbreviation row_of := (row_of py_float py_int).
Local Abbreviation read_row := (read_row py_float py_int).
Local Abbreviation read_rows := (read_rows py_float py_int).
Local Abbreviation read_tsv := (read_tsv py_float py_int).
Local Abbreviation fields_of := (fields_of py_float py_int).

Lemma read_row_skips (rows : list Hit) (r : list string) :
  is_data_row r = false -> read_row rows r = Ok rows.
Proof.
  unfold Sensitivity.read_row. destruct r as [|r0 r]; [done|].
  cbn [is_data_row]. intros Hs%negb_false_iff.
  rewrite bool_decide_eq_false_2 by done.
  cbn [getitem lookup list_lookup mbind result_bind]. by rewrite Hs.
Qed.

Lemma read_row_data (rows : list Hit) (r : list string) :
  is_data_row r = true ->
  read_row rows r
  = if (length r <? 8)%nat then Raise ValueError_columns
    else row ← row_of r; Ok (rows ++ [row]).
Proof.
  unfold Sensitivity.read_row. destruct r as [|r0 r]; [done|].
  cbn [is_data_row]. intros Hs%negb_true_iff.
  rewrite bool_decide_eq_false_2 by done.
  cbn [getitem lookup list_lookup mbind result_bind]. by rewrite Hs.
Qed.

Lemma read_rows_data_only (rdr : list (list string)) (rows : list Hit) :
  read_rows rows (filter (fun r => is_data_row r = true) rdr) = read_rows rows rdr.
Proof.
  revert rows. induction rdr as [|r rdr IH]; intros rows; [done|].
  rewrite filter_cons. destruct (decide (is_data_row r = true)) as [Hr|Hr].
  - cbn [Sensitivity.read_rows]. destruct (read_row rows r); cbn; [apply IH | done].
  - cbn [Sensitivity.read_rows]. rewrite read_row_skips by by destruct (is_data_row r).
    cbn. apply IH.
Qed.

Lemma row_of_fields (r : list string) (h : Hit) :
  row_of r = Ok h -> fields_of r h.
Proof.
  unfold Sensitivity.row_of, float, int, getitem.
  repeat match goal with
  | |- context [r !! ?i] => destruct (r !! i) as [?|] eqn:?; cbn; [|done]
  | |- context [py_float ?s] => destruct (py_float s) eqn:?; cbn; [|done]
  | |- context [py_int ?s] => destruct (py_int s) eqn:?; cbn; [|done]
  end.
  intros [= <-]. unfold SensitivityMore.fields_of. cbn. repeat split; eauto.
Qed.

Lemma read_rows_hits (rdr : list (list string)) (rows hits : list Hit) :
  read_rows rows rdr = Ok hits ->
  exists new,
    hits = rows ++ new /\
    Forall2 fields_of (filter (fun r => is_data_row r = true) rdr) new.
Proof.
  revert rows. induction rdr as [|r rdr IH]; intros rows.
  { intros [= <-]. exists []. by rewrite app_nil_r. }
  rewrite filter_cons. cbn [Sensitivity.read_rows].
  destruct (decide (is_data_row r = true)) as [Hr|Hr].
  - rewrite read_row_data by done.
    destruct (length r <? 8)%nat; [done|].
    destruct (row_of r) as [h|] eqn:Hh; [|done]. cbn.
    intros (new & -> & Hnew)%IH. exists (h :: new).
    split; [by rewrite <- app_assoc|]. constructor; [by apply row_of_fields | done].
  - rewrite read_row_skips by by destruct (is_data_row r). cbn. apply IH.
Qed.

(** X13.  Empty rows and comment rows do not matter: the reader gives the
    same hits, or the same error, for the file without them. *)
Theorem comments_and_blank_rows_skipped (files : gmap string (list (list string)))
    (path : string) :
  read_tsv ((fun rdr : list (list string) =>
               filter (fun r => is_data_row r = true) rdr) <$> files) path
  = read_tsv files path.
Proof.
  unfold Sensitivity.read_tsv. rewrite lookup_fmap.
  destruct (files !! path) as [rdr|]; [|done]. cbn. apply read_rows_data_only.
Qed.

(** X14.  When the reader returns, its hits are the data rows of the file,
    one hit per row and in the order of the rows; the items of a hit are
    the first two fields as they stand and the conversions of the next
    six. *)
Theorem hits_follow_data_rows (files : gmap string (list (list string)))
    (path : string) (rdr : list (list string)) (hits : list Hit) :
  files !! path = Some rdr ->
  read_tsv files path = Ok hits ->
  Forall2 fields_of (filter (fun r => is_data_row r = true) rdr) hits.
Proof.
  intros Hfile. unfold Sensitivity.read_tsv. rewrite Hfile.
  by intros (new & -> & Hnew)%read_rows_hits.
Qed.
End SensitivityReaderMore.

(** ** More on the sensitivity engine *)

Lemma size_list_to_set_le (l : list string) :
  size (list_to_set l : gset string) <= length l.
Proof.
  induction l as [|x l IH]; [by rewrite list_to_set_nil, size_empty|].
  rewrite list_to_set_cons, size_union_alt, size_singleton. cbn [length].
  pose proof (subseteq_size (list_to_set l ∖ {[x]}) (list_to_set l : gset string)) as H.
  assert (list_to_set l ∖ {[x]} ⊆ (list_to_set l : gset string)) as Hsub
    by apply subseteq_difference_l, reflexivity.
  specialize (H Hsub). lia.
Qed.

Lemma filter_length_Forall2 {A B} (P : A -> Prop) (Q : B -> Prop)
    `{!forall x, Decision (P x)} `{!forall y, Decision (Q y)} (l : list A) (k : list B) :
  Forall2 (fun x y => P x <-> Q y) l k ->
  length (filter P l) = length (filter Q k).
Proof.
  induction 1 as [|x y l k Hxy _ IH]; [done|].
  rewrite !filter_cons.
  destruct (decide (P x)), (decide (Q y)); cbn [length]; first [by rewrite IH | tauto].
Qed.

Lemma rstrip_char_snoc (c : ascii) (s : string) :
  rstrip_char c (s +:+ String c EmptyString) = rstrip_char c s.
Proof.
  induction s as [|d s IH].
  - change (EmptyString +:+ String c EmptyString) with (String c EmptyString).
    cbn. by rewrite Ascii.eqb_refl.
  - change (String d s +:+ String c EmptyString)
      with (String d (s +:+ String c EmptyString)).
    cbn [rstrip_char]. by rewrite IH.
Qed.

Section SensitivityEngineMore.
Import Sensitivity SensitivityMore.

(** X15.  The counts of a summary are ordered: distinct queries are no more
    than hits, conservative counts no more than the total counts, and no
    count exceeds the number of rows. *)
Theorem summary_count_bounds (rows : list Hit) (evalue_cutoff cons_pident cons_qcov : R)
    (b : Z) :
  let s := summary rows evalue_cutoff cons_pident cons_qcov b in
  n_unique_queries_total s <= n_hits_total s /\
  n_hits_total s <= length rows /\
  n_hits_conservative s <= n_hits_total s /\
  n_unique_queries_conservative s <= n_hits_conservative s /\
  n_unique_queries_conservative s <= n_unique_queries_total s.
Proof.
  cbn. repeat split.
  - etrans; [apply size_list_to_set_le|]. by rewrite length_fmap.
  - apply length_filter.
  - apply length_filter.
  - etrans; [apply size_list_to_set_le|]. by rewrite length_fmap.
  - apply unique_mono, sublist_subseteq, sublist_filter.
Qed.

(** X16.  Looser cutoffs and more rows never lower a count: with a larger
    e-value cutoff, smaller bitscore, identity and query-coverage cutoffs
    and a list of rows that contains the first as a sublist, each of the
    four counts is at least what it was. *)
Theorem looser_cutoffs_more_hits (rows rows' : list Hit)
    (ec ec' cp cp' cq cq' : R) (b b' : Z) :
  rows `sublist_of` rows' ->
  (ec <= ec')%R -> (b' <= b)%Z -> (cp' <= cp)%R -> (cq' <= cq)%R ->
  let s := summary rows ec cp cq b in
  let s' := summary rows' ec' cp' cq' b' in
  n_hits_total s <= n_hits_total s' /\
  n_unique_queries_total s <= n_unique_queries_total s' /\
  n_hits_conservative s <= n_hits_conservative s' /\
  n_unique_queries_conservative s <= n_unique_queries_conservative s'.
Proof.
  intros Hrows Hec Hb Hcp Hcq. apply IZR_le in Hb. cbn.
  set (pass := fun (e : R) (t : Z) (r : Hit) => (evalue r <= e /\ bits r >= IZR t)%R).
  set (cons := fun (p q : R) (r : Hit) => (pident r >= p /\ qcov r >= q)%R).
  assert (filter (pass ec b) rows `sublist_of` filter (pass ec' b') rows') as Hf.
  { apply filter_sublist_mono; [done|]. unfold pass. intros r [? ?]. split; lra. }
  assert (filter (cons cp cq) (filter (pass ec b) rows)
          `sublist_of` filter (cons cp' cq') (filter (pass ec' b') rows')) as Hc.
  { apply filter_sublist_mono; [done|]. unfold cons. intros r [? ?]. split; lra. }
  repeat split.
  - by apply sublist_length.
  - by apply unique_mono, sublist_subseteq.
  - by apply sublist_length.
  - by apply unique_mono, sublist_subseteq.
Qed.

Lemma bits_flags_dom (r : Hit) (bs : list Z) (entry entry' : gmap string value) :
  bits_flags r entry bs = Ok entry' ->
  dom entry' = dom entry ∪ list_to_set (pass_bits_key <$> bs).
Proof.
  revert entry. induction bs as [|b bs IH]; intros entry.
  { intros [= <-]. rewrite fmap_nil, list_to_set_nil.
    symmetry. apply (right_id_L ∅ (∪)). }
  cbn [bits_flags].
  destruct (py_and _ _) as [v|]; [|done]. cbn [mbind result_bind].
  intros ->%IH. rewrite dom_insert_L, fmap_cons, list_to_set_cons.
  apply set_eq. intros k. rewrite !elem_of_union. tauto.
Qed.

(** The keys of an entry are the field names of the detailed table. *)
Lemma detailed_entry_dom (bits_list : list Z) (ec cp cq : R) (r : Hit)
    (entry : gmap string value) :
  detailed_entry bits_list ec cp cq r = Ok entry ->
  dom entry = list_to_set (detailed_fieldnames bits_list).
Proof.
  unfold detailed_entry.
  destruct (bits_flags _ _ _) as [entry2|] eqn:Hflags; [|done].
  cbn [mbind result_bind].
  destruct (py_and _ _) as [v|]; [|done]. cbn [mbind result_bind].
  intros [= <-]. apply bits_flags_dom in Hflags.
  rewrite dom_insert_L, Hflags, dom_insert_L.
  unfold dict. rewrite dom_list_to_map_L.
  unfold detailed_fieldnames, base_fields.
  rewrite !list_to_set_app_L. cbn [fmap list_fmap fst].
  apply set_eq. intros k.
  rewrite !elem_of_union, !elem_of_list_to_set, !elem_of_cons, !elem_of_singleton.
  tauto.
Qed.

Section Tables.
Context (rows : list Hit) (bits_list : list Z).
Context (evalue_cutoff cons_pident cons_qcov : R).
Local Abbreviation summary := (summary rows evalue_cutoff cons_pident cons_qcov).
Local Abbreviation detailed_entry :=
  (detailed_entry bits_list evalue_cutoff cons_pident cons_qcov).
Local Abbreviation make_summaries :=
  (make_summaries rows bits_list evalue_cutoff cons_pident cons_qcov).

(** X17.  The summaries agree with the flags of the detailed entries: for
    each summary, the number of hits is the number of entries whose
    [pass_bits] flag of that threshold is true, and the number of
    conservative hits is the number of entries with that flag and
    [pass_conservative] both true. *)
Theorem summary_matches_flags (summaries : list Summary)
    (detailed : list (gmap string value)) (s : Summary) :
  make_summaries = Ok (summaries, detailed) ->
  s ∈ summaries ->
  n_hits_total s
  = length (filter (fun e => e !! pass_bits_key (threshold_bits s) = Some (VBool true))
              detailed) /\
  n_hits_conservative s
  = length (filter (fun e => e !! pass_bits_key (threshold_bits s) = Some (VBool true) /\
                             e !! "pass_conservative" = Some (VBool true))
              detailed).
Proof.
  intros Hrun Hs.
  destruct (make_summaries_ok rows bits_list evalue_cutoff cons_pident cons_qcov)
    as (detailed' & Hrun' & Hall).
  rewrite Hrun' in Hrun. injection Hrun as <- <-.
  apply list_elem_of_fmap in Hs as (b & -> & Hb). cbn [threshold_bits].
  assert (Forall2 (fun (r : Hit) (e : gmap string value) =>
            e !! pass_bits_key b
            = Some (VBool (bool_decide (bits r >= IZR b)%R
                           && bool_decide (evalue r <= evalue_cutoff)%R)) /\
            e !! "pass_conservative"
            = Some (VBool (bool_decide (evalue r <= evalue_cutoff)%R
                           && bool_decide (pident r >= cons_pident)%R
                           && bool_decide (qcov r >= cons_qcov)%R)))
            rows detailed') as Hflags.
  { eapply Forall2_impl; [exact Hall|]. intros r e Hmade.
    destruct (detailed_entry_ok bits_list evalue_cutoff cons_pident cons_qcov r)
      as (e' & Hmade' & _ & _ & Hbits & Hcons).
    rewrite Hmade in Hmade'. simplify_eq. split; [by apply Hbits | done]. }
  cbn. split.
  - apply filter_length_Forall2. eapply Forall2_impl; [exact Hflags|].
    intros r e [-> _]. split.
    + intros [? ?]. do 2 f_equal.
      apply andb_true_iff. by rewrite !bool_decide_eq_true.
    + intros [= [? ?]%andb_true_iff]. by rewrite !bool_decide_eq_true in *.
  - rewrite list_filter_filter. apply filter_length_Forall2.
    eapply Forall2_impl; [exact Hflags|].
    intros r e [-> ->]. split.
    + intros [[? ?] [? ?]]. split; do 2 f_equal;
        rewrite ?andb_true_iff, !bool_decide_eq_true; done.
    + intros [[= H1] [= H2]].
      rewrite !andb_true_iff, !bool_decide_eq_true in *. tauto.
Qed.

(** X18.  The detailed table is complete: the keys of every entry are
    exactly the field names of the header, every line has as many cells
    as the header, and each cell is the value the entry holds for its
    column, never the default for a missing key. *)
Theorem detailed_table_complete (summaries : list Summary)
    (detailed : list (gmap string value)) (out_path : string)
    (disk : gmap string table) :
  make_summaries = Ok (summaries, detailed) ->
  Forall (fun entry => dom entry = list_to_set (detailed_fieldnames bits_list)) detailed /\
  exists body,
    write_detailed detailed bits_list out_path disk !! out_path
    = Some ((VStr <$> detailed_fieldnames bits_list) :: body) /\
    Forall2 (fun entry line =>
               length line = length (detailed_fieldnames bits_list) /\
               (fun k => entry !! k) <$> detailed_fieldnames bits_list = Some <$> line)
      detailed body.
Proof.
  intros Hrun.
  destruct (make_summaries_ok rows bits_list evalue_cutoff cons_pident cons_qcov)
    as (detailed' & Hrun' & Hall).
  rewrite Hrun' in Hrun. injection Hrun as <- <-.
  assert (Forall (fun entry => dom entry = list_to_set (detailed_fieldnames bits_list))
            detailed') as Hdom.
  { apply Forall_forall. intros entry Hentry.
    apply list_elem_of_lookup in Hentry as [i Hi].
    destruct (Forall2_lookup_r _ _ _ _ _ Hall Hi) as (r & _ & Hmade).
    by eapply detailed_entry_dom. }
  split; [done|].
  destruct (write_detailed_lookup bits_list detailed' out_path disk)
    as (fieldnames & -> & Hfile).
  eexists. split; [exact Hfile|].
  apply Forall2_fmap_r, Forall_Forall2_diag.
  eapply Forall_impl; [exact Hdom|]. intros entry Hentry.
  split; [by rewrite length_fmap|].
  rewrite <- list_fmap_compose. apply list_fmap_ext. intros i k Hk. cbn.
  assert (k ∈ dom entry) as [v Hv]%elem_of_dom.
  { rewrite Hentry. apply elem_of_list_to_set. by eapply list_elem_of_lookup_2. }
  by rewrite Hv.
Qed.
End Tables.

Section MainMore.
Context (py_float : string -> option R) (py_int : string -> option Z).
Local Abbreviation read_tsv := (read_tsv py_float py_int).
Local Abbreviation main := (main py_float py_int).

Lemma main_tables_run (args : Args) (files : gmap string (list (list string)))
    (disk : gmap string table) (rows : list Hit) :
  read_tsv files (infile args) = Ok rows ->
  exists body,
    main args files disk
    = (<[out_detailed args := (VStr <$> detailed_fieldnames (args_bits args)) :: body]>
         (<[out_summary args :=
              (VStr <$> summary_fieldnames)
              :: (summary_cells
                    <$> (summary rows (args_evalue args) (args_cons_pident args)
                           (args_cons_qcov args) <$> args_bits args))]> disk),
       Ok ()) /\
    take 8 <$> body = hit_cells <$> rows.
Proof.
  intros Hread. unfold Sensitivity.main. rewrite Hread.
  destruct (make_summaries_ok rows (args_bits args) (args_evalue args)
              (args_cons_pident args) (args_cons_qcov args)) as (detailed & -> & Hall).
  unfold write_detailed, write_summaries. rewrite !loop_append. cbn [app].
  eexists. split; [reflexivity|].
  apply body_cells. eapply Forall2_impl; [exact Hall|]. intros r entry Hmade.
  destruct (detailed_entry_ok (args_bits args) (args_evalue args)
              (args_cons_pident args) (args_cons_qcov args) r)
    as (entry' & Hmade' & Hsub & _).
  rewrite Hmade in Hmade'. by simplify_eq.
Qed.

(** X19.  A run whose input is read without an error ends normally and
    writes the two tables and nothing else: the summary table holds the
    header and one line per declared threshold, in the declared order,
    with the threshold, the e-value cutoff and the four counts; the
    detailed table holds its header and one line per hit. *)
Theorem main_tables (args : Args) (files : gmap string (list (list string)))
    (disk : gmap string table) (rows : list Hit) :
  read_tsv files (infile args) = Ok rows ->
  exists body,
    main args files disk
    = (<[out_detailed args := (VStr <$> detailed_fieldnames (args_bits args)) :: body]>
         (<[out_summary args :=
              (VStr <$> summary_fieldnames)
              :: (summary_cells
                    <$> (summary rows (args_evalue args) (args_cons_pident args)
                           (args_cons_qcov args) <$> args_bits args))]> disk),
       Ok ()) /\
    take 8 <$> body = hit_cells <$> rows.
Proof. exact (main_tables_run args files disk rows). Qed.

(** X20.  An input without a data row (empty, or only comments and empty
    rows) is no error: every threshold gets a summary line with all four
    counts 0, and the detailed table holds its header only. *)
Theorem main_no_data_rows (args : Args) (files : gmap string (list (list string)))
    (disk : gmap string table) (rdr : list (list string)) :
  files !! infile args = Some rdr ->
  Forall (fun r => is_data_row r = false) rdr ->
  read_tsv files (infile args) = Ok [] /\
  main args files disk
  = (<[out_detailed args := [VStr <$> detailed_fieldnames (args_bits args)]]>
       (<[out_summary args :=
            (VStr <$> summary_fieldnames)
            :: ((fun b => [VInt b; VFloat (args_evalue args);
                           VInt 0; VInt 0; VInt 0; VInt 0])
                  <$> args_bits args)]> disk),
     Ok ()).
Proof.
  intros Hfile Hnone.
  assert (read_tsv files (infile args) = Ok []) as Hread.
  { unfold Sensitivity.read_tsv. rewrite Hfile.
    rewrite <- read_rows_data_only.
    assert (filter (fun r => is_data_row r = true) rdr = []) as ->; [|done].
    clear Hfile. induction Hnone as [|r l Hr _ IH]; [done|].
    rewrite filter_cons, IH. destruct (decide _); congruence. }
  split; [done|].
  destruct (main_tables_run args files disk [] Hread) as (body & -> & Hbody).
  destruct body; [|done].
  do 3 f_equal. rewrite <- list_fmap_compose. f_equal.
Qed.

(** X21.  Trailing slashes of the output directory do not matter. *)
Theorem out_dir_trailing_slash (args : Args) (files : gmap string (list (list string)))
    (disk : gmap string table) :
  main {| infile := infile args; out_dir := out_dir args +:+ "/";
          args_bits := args_bits args; args_evalue := args_evalue args;
          args_cons_pident := args_cons_pident args;
          args_cons_qcov := args_cons_qcov args |} files disk
  = main args files disk.
Proof.
  unfold Sensitivity.main. cbn [infile out_dir args_bits args_evalue
                                 args_cons_pident args_cons_qcov].
  by rewrite rstrip_char_snoc.
Qed.
End MainMore.
End SensitivityEngineMore.

Section ThresholdOrder.
Import Sensitivity SensitivityMore.

(** X22.  The entry of a hit depends on which thresholds are declared, not
    on their order or on repetitions. *)
Theorem entry_threshold_order (bits1 bits2 : list Z) (ec cp cq : R) (r : Hit) :
  (forall b, b ∈ bits1 <-> b ∈ bits2) ->
  detailed_entry bits1 ec cp cq r = detailed_entry bits2 ec cp cq r.
Proof.
  intros Hsame.
  destruct (detailed_entry_ok bits1 ec cp cq r) as (e1 & Hm1 & Hsub1 & Hpe1 & Hb1 & Hc1).
  destruct (detailed_entry_ok bits2 ec cp cq r) as (e2 & Hm2 & Hsub2 & Hpe2 & Hb2 & Hc2).
  rewrite Hm1, Hm2. f_equal. apply map_eq. intros k.
  pose proof (detailed_entry_dom bits1 ec cp cq r e1 Hm1) as Hd1.
  pose proof (detailed_entry_dom bits2 ec cp cq r e2 Hm2) as Hd2.
  assert (forall bits1 bits2 : list Z, (forall b, b ∈ bits1 -> b ∈ bits2) ->
          forall k, k ∈ detailed_fieldnames bits1 -> k ∈ detailed_fieldnames bits2) as Hnames.
  { intros l1 l2 Hl k'. unfold detailed_fieldnames.
    rewrite !elem_of_app, !list_elem_of_fmap.
    intros [?|[(b & -> & Hb)|?]]; [by left | | by right; right].
    right; left. exists b. split; [done | by apply Hl]. }
  destruct (e1 !! k) as [v|] eqn:Hk1.
  - assert (k ∈ dom e1) as Hin by (apply elem_of_dom; by eexists).
    rewrite Hd1 in Hin. apply elem_of_list_to_set in Hin.
    unfold detailed_fieldnames, base_fields in Hin.
    rewrite !elem_of_app, list_elem_of_fmap in Hin.
    destruct Hin as [Hbase|[(b & -> & Hb)|Hpc]].
    + destruct (dict r !! k) as [w|] eqn:Hdict.
      * rewrite (lookup_weaken _ _ _ _ Hdict Hsub1) in Hk1.
        rewrite (lookup_weaken _ _ _ _ Hdict Hsub2). congruence.
      * rewrite !elem_of_cons, elem_of_nil in Hbase.
        repeat destruct Hbase as [->|Hbase]; try done. congruence.
    + rewrite Hb1 in Hk1 by done. rewrite Hb2 by by apply Hsame. congruence.
    + apply list_elem_of_singleton in Hpc as ->. congruence.
  - symmetry. apply not_elem_of_dom. rewrite Hd2.
    intros Hin%elem_of_list_to_set.
    apply (Hnames bits2 bits1) in Hin; [|intros b; apply Hsame].
    assert (k ∈ dom e1) as [? ?]%elem_of_dom
      by (rewrite Hd1; by apply elem_of_list_to_set).
    congruence.
Qed.
End ThresholdOrder.

(** ** The properties above on concrete inputs *)

Section CoverageMoreExamples.
Import Coverage CoverageMain.




Lemma uniform_file_passes :
  exists m,
    target_row decimal_float 5 (1 / 2) ["1 10"; "2 10"; "3 10"] = Ok (m, true).
Proof.
  unfold target_row. rewrite read_depth_file_spec. cbn [mbind result_bind].
  change (omap (line_depth decimal_float) ["1 10"; "2 10"; "3 10"])
    with [(IZR 10 * powerRZ 10 0)%R; (IZR 10 * powerRZ 10 0)%R; (IZR 10 * powerRZ 10 0)%R].
  rewrite (uniform_metrics _ (IZR 10 * powerRZ 10 0)%R);
    [|discriminate | repeat constructor | simpl; lra].
  eexists. do 2 f_equal. cbn [evenness breadth].
  apply andb_true_iff. rewrite !bool_decide_eq_true. lra.
Qed.

(** A file that passes the default cutoffs passes lower ones. *)
Lemma pass_monotone_in_cutoffs_witness :
  exists m,
    target_row decimal_float 1 (1 / 4) ["1 10"; "2 10"; "3 10"] = Ok (m, true).
Proof.
  destruct uniform_file_passes as [m Hm]. exists m.
  apply (pass_monotone_in_cutoffs decimal_float 1 5 (1 / 4) (1 / 2) _ m); [lra | lra | exact Hm].
Defined.

(** Only the last suffix is cut. *)
Lemma target_of_depth_file_witness :
  target_of "sample.depth.depth" = "sample.depth" /\
  target_of "sample.depth.depth" +:+ ".depth" = "sample.depth.depth".
Proof.
  split; [reflexivity|].
  apply (target_of_depth_file "sample.depth.depth"). reflexivity.
Defined.

Lemma example_files_readable (fn : string) :
  fn ∈ ["b.depth"; "notes.txt"; "a.depth"] -> endswith fn ".depth" = true ->
  is_Some (example_files !! join "cov" fn).
Proof.
  rewrite !elem_of_cons, elem_of_nil.
  intros [->|[->|[->|[]]]] Hend; [by eexists | discriminate Hend | by eexists].
Qed.

(** The directory [cov]: two rows below the header. *)
Lemma coverage_report_rows_witness :
  exists body,
    main decimal_float any_format example_args example_dirs example_files ∅
    = (<["Table_Sx_coverage.csv" := header :: body]> ∅, Ok ()) /\
    length body = 2.
Proof.
  destruct (coverage_report_rows decimal_float any_format example_args example_dirs
              example_files ∅ ["b.depth"; "notes.txt"; "a.depth"] eq_refl
              example_files_readable)
    as (names & body & Hrun & Hperm & _ & Hbody).
  exists body. split; [exact Hrun|].
  rewrite <- (Forall2_length _ _ _ Hbody), Hperm. reflexivity.
Defined.

Lemma coverage_report_header_only_witness :
  main decimal_float any_format example_args other_dirs example_files ∅
  = (<["Table_Sx_coverage.csv" := [header]]> ∅, Ok ()).
Proof.
  apply (coverage_report_header_only decimal_float any_format example_args other_dirs
           example_files ∅ ["notes.txt"; "depth"]); [reflexivity|].
  repeat constructor.
Defined.

(** The file of [b.depth] cannot be read: the row of [a.depth] is left. *)
Lemma coverage_report_partial_witness :
  exists body,
    main decimal_float any_format example_args example_dirs example_files_a ∅
    = (<["Table_Sx_coverage.csv" := header :: body]> ∅,
       Raise (FileNotFoundError "cov/b.depth")) /\
    length body = 1.
Proof.
  destruct (coverage_report_partial decimal_float any_format example_args example_dirs
              example_files_a ∅ ["b.depth"; "notes.txt"; "a.depth"]
              ["a.depth"] "b.depth" [] eq_refl eq_refl)
    as (body & Hrun & Hbody).
  - repeat constructor. by eexists.
  - reflexivity.
  - exists body. split; [exact Hrun|]. by rewrite <- (Forall2_length _ _ _ Hbody).
Defined.

Lemma coverage_report_listing_order_witness :
  main decimal_float any_format example_args
    (<["cov" := ["a.depth"; "b.depth"; "notes.txt"]]> example_dirs) example_files ∅
  = main decimal_float any_format example_args example_dirs example_files ∅.
Proof.
  apply (coverage_report_listing_order decimal_float any_format example_args
           example_dirs example_files ∅ ["b.depth"; "notes.txt"; "a.depth"]);
    [reflexivity|].
  symmetry. apply (Permutation_cons_append ["b.depth"; "notes.txt"] "a.depth").
Defined.
End CoverageMoreExamples.

Section SensitivityMoreExamples.
Import Sensitivity SensitivityMore Examples.

Lemma hits_file_read :
  read_tsv decimal_float decimal_int more_files "hits.tsv" = Ok [full_hit].
Proof.
  assert (read_tsv decimal_float decimal_int more_files "hits.tsv"
          = read_rows decimal_float decimal_int []
              [["# query"; "target"]; full_row; []]) as -> by reflexivity.
  rewrite <- read_rows_data_only. apply full_row_read.
Qed.

(** The file [hits.tsv]: a comment, the row of [full_hit], an empty row. *)
Lemma hits_follow_data_rows_witness :
  Forall2 (fields_of decimal_float decimal_int) [full_row] [full_hit].
Proof.
  exact (hits_follow_data_rows decimal_float decimal_int more_files "hits.tsv"
           [["# query"; "target"]; full_row; []] [full_hit] eq_refl hits_file_read).
Defined.

Lemma looser_cutoffs_more_hits_witness :
  n_hits_total (summary [full_hit] (1 / 100000) 30 50 35)
  <= n_hits_total (summary [full_hit; weak_hit] (1 / 1000) 20 40 20).
Proof.
  refine (proj1 (looser_cutoffs_more_hits [full_hit] [full_hit; weak_hit]
                   (1 / 100000) (1 / 1000) 30 20 50 40 35 20 _ _ _ _ _)).
  - apply sublist_skip, sublist_cons, sublist_nil.
  - lra.
  - lia.
  - lra.
  - lra.
Defined.

Lemma summary_matches_flags_witness :
  exists summaries detailed,
    make_summaries [full_hit; weak_hit] DEFAULT_BITS DEFAULT_EVALUE 30 50
    = Ok (summaries, detailed) /\
    n_hits_total (summary [full_hit; weak_hit] DEFAULT_EVALUE 30 50 35)
    = length (filter (fun e => e !! "pass_bits_35" = Some (VBool true)) detailed).
Proof.
  destruct (make_summaries_ok [full_hit; weak_hit] DEFAULT_BITS DEFAULT_EVALUE 30 50)
    as (detailed & Hrun & _).
  exists (summary [full_hit; weak_hit] DEFAULT_EVALUE 30 50 <$> DEFAULT_BITS), detailed.
  split; [exact Hrun|].
  refine (proj1 (summary_matches_flags [full_hit; weak_hit] DEFAULT_BITS DEFAULT_EVALUE
                   30 50 _ detailed
                   (summary [full_hit; weak_hit] DEFAULT_EVALUE 30 50 35) Hrun _)).
  unfold DEFAULT_BITS. rewrite !fmap_cons. elem_of_literal.
Defined.

Lemma detailed_table_complete_witness :
  exists summaries detailed,
    make_summaries [full_hit] DEFAULT_BITS DEFAULT_EVALUE 30 50 = Ok (summaries, detailed) /\
    Forall (fun entry => dom entry = list_to_set (detailed_fieldnames DEFAULT_BITS))
      detailed.
Proof.
  destruct (make_summaries_ok [full_hit] DEFAULT_BITS DEFAULT_EVALUE 30 50)
    as (detailed & Hrun & _).
  exists (summary [full_hit] DEFAULT_EVALUE 30 50 <$> DEFAULT_BITS), detailed.
  split; [exact Hrun|].
  exact (proj1 (detailed_table_complete [full_hit] DEFAULT_BITS DEFAULT_EVALUE 30 50
                  _ detailed "out.csv" ∅ Hrun)).
Defined.

Lemma main_tables_witness :
  exists disk,
    main decimal_float decimal_int (args_for "hits.tsv") more_files ∅ = (disk, Ok ()) /\
    is_Some (disk !! "supplementary/Table_Sx_sensitivity.csv") /\
    is_Some (disk !! "supplementary/Table_Sx_detailed.csv").
Proof.
  destruct (main_tables decimal_float decimal_int (args_for "hits.tsv") more_files ∅
              [full_hit] hits_file_read) as (body & Hrun & _).
  eexists. split; [exact Hrun|]. split.
  - rewrite lookup_insert_ne by discriminate. rewrite lookup_insert_eq. by eexists.
  - rewrite lookup_insert_eq. by eexists.
Defined.

Lemma main_no_data_rows_witness :
  read_tsv decimal_float decimal_int more_files "comments.tsv" = Ok [] /\
  exists disk,
    main decimal_float decimal_int (args_for "comments.tsv") more_files ∅ = (disk, Ok ()) /\
    disk !! "supplementary/Table_Sx_detailed.csv"
    = Some [VStr <$> detailed_fieldnames DEFAULT_BITS].
Proof.
  destruct (main_no_data_rows decimal_float decimal_int (args_for "comments.tsv")
              more_files ∅ [["# query"; "target"]; []; ["#"]] eq_refl) as [Hread Hrun].
  - repeat constructor.
  - split; [exact Hread|]. eexists. split; [exact Hrun|]. apply lookup_insert_eq.
Defined.

Lemma entry_threshold_order_witness :
  detailed_entry [20; 35]%Z DEFAULT_EVALUE 30 50 full_hit
  = detailed_entry [35; 20; 20]%Z DEFAULT_EVALUE 30 50 full_hit.
Proof.
  apply entry_threshold_order. intros b.
  rewrite !elem_of_cons, !elem_of_nil. tauto.
Defined.
End SensitivityMoreExamples.
